(** * Lebanon visa application form filler: a shallow embedding

    The development follows [fill_visa_form.py] and [field_config.py].

    - Python [str] values are sequences of Unicode code points ([list N]);
      [u "..."] writes an ASCII literal.
    - Values loaded by [json.load] are the inductive [json]; a [dict] is a
      [gmap] from keys to values.
    - The page is the chronological log of the PyMuPDF calls made on it,
      each with its outcome.  [print] output is not part of the model.
    - Python exceptions raised by ill-typed record values ([AttributeError],
      [TypeError]) are explicit: effectful functions live in the monad [M],
      which threads the page and yields a value or an exception.
    - The PyMuPDF calls the source makes outside a [try] return; the
      outcome of those it makes inside one is given by the environment. *)

From Stdlib Require Import ZArith NArith List String Ascii Lia Bool DecimalString.
From stdpp Require Import base gmap strings list.

Local Open Scope Z_scope.

(** ** Python strings *)

Abbreviation str := (list N).

Definition u (s : string) : str := N_of_ascii <$> list_ascii_of_string s.

Module PyStr.

(** [str.isspace] on one code point: the characters CPython's
    [_PyUnicode_IsWhitespace] accepts. *)
Definition isspace (c : N) : bool :=
  ((9 <=? c) && (c <=? 13) || (28 <=? c) && (c <=? 32)
   || (c =? 0x85) || (c =? 0xA0) || (c =? 0x1680)
   || (0x2000 <=? c) && (c <=? 0x200A)
   || (c =? 0x2028) || (c =? 0x2029) || (c =? 0x202F)
   || (c =? 0x205F) || (c =? 0x3000))%N.

Fixpoint lstrip (s : str) : str :=
  match s with
  | c :: s' => if isspace c then lstrip s' else s
  | [] => []
  end.

Definition rstrip (s : str) : str := rev (lstrip (rev s)).

(** [s.strip()] *)
Definition strip (s : str) : str := rstrip (lstrip s).

(** Case mapping is modelled on the ASCII letters; other code points are
    left as they are.  The keys and literals the program compares the
    results with are ASCII. *)
Definition lower_cp (c : N) : N :=
  if ((65 <=? c) && (c <=? 90))%N then (c + 32)%N else c.

Definition upper_cp (c : N) : N :=
  if ((97 <=? c) && (c <=? 122))%N then (c - 32)%N else c.

(** [s.lower()], [s.upper()] *)
Definition lower (s : str) : str := lower_cp <$> s.
Definition upper (s : str) : str := upper_cp <$> s.

(** [s.split(sep)] for a one-character separator. *)
Fixpoint split (sep : N) (s : str) : list str :=
  match s with
  | [] => [[]]
  | c :: s' =>
      if (c =? sep)%N then [] :: split sep s'
      else match split sep s' with
           | w :: ws => (c :: w) :: ws
           | [] => [[c]]
           end
  end.

(** [sep.join(parts)] *)
Fixpoint join (sep : str) (parts : list str) : str :=
  match parts with
  | [] => []
  | [p] => p
  | p :: ps => p ++ sep ++ join sep ps
  end.

(** [bool(s)] *)
Definition nonempty (s : str) : bool :=
  match s with [] => false | _ :: _ => true end.

End PyStr.

(** ** Values of an applicant record *)

#[warnings="-register-all"]
Inductive json :=
| JNull
| JBool (b : bool)
| JInt (z : Z)
| JFloat (m e : Z)          (* the finite double m * 2^e *)
| JStr (s : str)
| JList (l : list json)
| JDict (d : gmap str json).

(** Python truthiness, [bool(v)]. *)
Definition truthy (v : json) : bool :=
  match v with
  | JNull => false
  | JBool b => b
  | JInt z => negb (z =? 0)
  | JFloat m _ => negb (m =? 0)
  | JStr s => PyStr.nonempty s
  | JList l => match l with [] => false | _ :: _ => true end
  | JDict d => negb (Nat.eqb (size d) 0)
  end.

(** ** Exceptions and the page monad *)

Inductive exn := AttributeError | TypeError.

Inductive result (A : Type) :=
| Ok (a : A)
| Raise (e : exn).
Arguments Ok {A} a.
Arguments Raise {A} e.

#[global] Instance result_ret : MRet result := fun _ a => Ok a.
#[global] Instance result_bind : MBind result := fun _ _ f r =>
  match r with
  | Ok a => f a
  | Raise e => Raise e
  end.

(** A keyword argument bundle [**font_config] of [page.insert_text]. *)
Record font_config := FontConfig {
  fontfile : option str;
  fontname : str
}.

(** The two PyMuPDF page methods the program calls. *)
Inductive call :=
| InsertText (point : Z * Z) (text : str) (font : font_config)
             (fontsize : Z) (color : Z * Z * Z)
| DrawRect (rect : Z * Z * Z * Z) (color fill : Z * Z * Z).

(** A call on the page and whether it succeeded ([drawn = false]: the call
    raised and left the page as it was). *)
Record event := Event {
  ev_call : call;
  drawn : bool
}.

Abbreviation page := (list event).

(** Stateful computations: the page is threaded through, and is kept when
    an exception is raised. *)
Definition M (A : Type) : Type := page -> result A * page.

#[global] Instance M_ret : MRet M := fun _ a pg => (Ok a, pg).
#[global] Instance M_bind : MBind M := fun _ _ f c pg =>
  match c pg with
  | (Ok a, pg') => f a pg'
  | (Raise e, pg') => (Raise e, pg')
  end.

Definition lift {A} (r : result A) : M A := fun pg => (r, pg).

Definition skip : M unit := mret tt.

(** The content of the page: the calls that succeeded, in drawing order. *)
Definition drawn_calls (pg : page) : list call :=
  ev_call <$> filter (fun e => drawn e = true) pg.

(** ** Reading Python values *)

(** [d.get(key, default)] on a value: only a [dict] has the method. *)
Definition py_get (v : json) (key : str) (dflt : json) : result json :=
  match v with
  | JDict d => Ok (default dflt (d !! key))
  | _ => Raise AttributeError
  end.

(** [v.lower()]: only a [str] has the method. *)
Definition py_lower (v : json) : result str :=
  match v with
  | JStr s => Ok (PyStr.lower s)
  | _ => Raise AttributeError
  end.

(** [text and text.strip()] as a condition, on a [str]. *)
Definition nonblank (text : str) : bool :=
  PyStr.nonempty text && PyStr.nonempty (PyStr.strip text).

(** ** field_config.py *)

Definition FONT_NAME : str := u "helv".
Definition FONT_SIZE : Z := 9.
Definition CHECKBOX_CHAR : str := u "X".
Definition CHECKBOX_FONT_SIZE : Z := 10.

Definition FIELD_COORDINATES : gmap str (Z * Z) :=
  list_to_map
    [ (u "first_name", (67, 154));
      (u "middle_name", (198, 154));
      (u "last_name", (323, 154));
      (u "place_of_birth", (72, 178));
      (u "dob", (198, 188));
      (u "mobile", (328, 178));
      (u "present_nationality", (72, 210));
      (u "nationality_of_origin", (198, 210));
      (u "email", (328, 210));
      (u "passport_number", (72, 238));
      (u "issuing_country", (198, 238));
      (u "passport_expiry", (328, 248));
      (u "uae_address", (72, 270));
      (u "checkbox_female", (380, 259));
      (u "checkbox_male", (415, 259));
      (u "home_phone", (459, 270));
      (u "visa_refusal_details", (72, 307));
      (u "job_title", (328, 298));
      (u "uae_residency_expiry", (328, 323));
      (u "checkbox_single", (364, 347));
      (u "checkbox_married", (357, 366));
      (u "checkbox_divorced", (435, 348));
      (u "checkbox_widowed", (433, 366));
      (u "lebanon_previous_visits", (72, 402));
      (u "trip_start_date", (328, 393));
      (u "trip_end_date", (420, 393));
      (u "criminal_record_details", (72, 460));
      (u "checkbox_business", (339, 415));
      (u "checkbox_education", (339, 424));
      (u "checkbox_tourism", (337, 433));
      (u "checkbox_family_visit", (337, 443));
      (u "checkbox_official", (337, 452));
      (u "checkbox_other_purpose", (337, 460));
      (u "other_purpose_text", (430, 460));
      (u "contact_person", (72, 482));
      (u "lebanon_address", (72, 507));
      (u "arrival_date", (72, 544));
      (u "departure_date", (328, 544));
      (u "checkbox_single_entry", (68, 577));
      (u "checkbox_two_entry", (68, 599));
      (u "checkbox_multiple_entry", (68, 620));
      (u "checkbox_15_days", (272, 575));
      (u "checkbox_one_month", (354, 575));
      (u "checkbox_three_months", (271, 584));
      (u "checkbox_six_months", (353, 583));
      (u "signature_date", (295, 644));
      (u "accompanied_by_arabic", (450, 750)) ].

Definition CHECKBOX_MAPPINGS : gmap str (gmap str str) :=
  list_to_map
    [ (u "sex",
       list_to_map
         [ (u "female", u "checkbox_female");
           (u "male", u "checkbox_male");
           (u "f", u "checkbox_female");
           (u "m", u "checkbox_male") ]);
      (u "marital_status",
       list_to_map
         [ (u "single", u "checkbox_single");
           (u "married", u "checkbox_married");
           (u "divorced", u "checkbox_divorced");
           (u "widowed", u "checkbox_widowed") ]);
      (u "purpose_of_trip",
       list_to_map
         [ (u "business", u "checkbox_business");
           (u "education", u "checkbox_education");
           (u "tourism", u "checkbox_tourism");
           (u "family_visit", u "checkbox_family_visit");
           (u "family visit", u "checkbox_family_visit");
           (u "official", u "checkbox_official");
           (u "other", u "checkbox_other_purpose") ]);
      (u "visa_type",
       list_to_map
         [ (u "single_entry", u "checkbox_single_entry");
           (u "single", u "checkbox_single_entry");
           (u "two_entry", u "checkbox_two_entry");
           (u "double", u "checkbox_two_entry");
           (u "multiple_entry", u "checkbox_multiple_entry");
           (u "multiple", u "checkbox_multiple_entry") ]);
      (u "visa_duration",
       list_to_map
         [ (u "15_days", u "checkbox_15_days");
           (u "15 days", u "checkbox_15_days");
           (u "one_month", u "checkbox_one_month");
           (u "1_month", u "checkbox_one_month");
           (u "1 month", u "checkbox_one_month");
           (u "three_months", u "checkbox_three_months");
           (u "3_months", u "checkbox_three_months");
           (u "3 months", u "checkbox_three_months");
           (u "six_months", u "checkbox_six_months");
           (u "6_months", u "checkbox_six_months");
           (u "6 months", u "checkbox_six_months") ]) ].

(** [TEXT_FIELD_MAPPINGS.items()], in the order of the literal. *)
Definition TEXT_FIELD_MAPPINGS : list (str * str) :=
  [ (u "personal_info.first_name", u "first_name");
    (u "personal_info.middle_name", u "middle_name");
    (u "personal_info.last_name", u "last_name");
    (u "personal_info.place_of_birth", u "place_of_birth");
    (u "personal_info.date_of_birth", u "dob");
    (u "personal_info.mobile", u "mobile");
    (u "personal_info.present_nationality", u "present_nationality");
    (u "personal_info.nationality_of_origin", u "nationality_of_origin");
    (u "passport_info.passport_number", u "passport_number");
    (u "passport_info.issuing_country", u "issuing_country");
    (u "passport_info.expiry_date", u "passport_expiry");
    (u "residence_info.uae_address", u "uae_address");
    (u "residence_info.uae_residency_expiry", u "uae_residency_expiry");
    (u "travel_history.visa_refusal_details", u "visa_refusal_details");
    (u "travel_history.lebanon_previous_visits", u "lebanon_previous_visits");
    (u "travel_history.criminal_record_details", u "criminal_record_details");
    (u "trip_info.start_date", u "trip_start_date");
    (u "trip_info.end_date", u "trip_end_date");
    (u "trip_info.other_purpose", u "other_purpose_text");
    (u "trip_info.arrival_date", u "arrival_date");
    (u "trip_info.departure_date", u "departure_date");
    (u "accommodation_info.contact_person", u "contact_person");
    (u "accommodation_info.lebanon_address", u "lebanon_address");
    (u "signature_date", u "signature_date");
    (u "accompanied_by_arabic", u "accompanied_by_arabic") ].

(** U+FE91 U+FEE4 U+FEAE U+0627 U+FED3 U+FED8 U+FE94, then two spaces. *)
Definition ARABIC_ACCOMPANIED_BY_PREFIX : str :=
  [0xFE91; 0xFEE4; 0xFEAE; 0x627; 0xFED3; 0xFED8; 0xFE94; 32; 32]%N.

(** ** The runtime environment

    What the process finds when it runs: whether the optional libraries were
    imported, what they compute, and which guarded draws succeed. *)

Record env := Env {
  TRANSLATION_SUPPORT : bool;
  ARABIC_SUPPORT : bool;
  (* GoogleTranslator(source='auto', target='ar').translate; None: it raised *)
  translate : str -> option str;
  (* arabic_reshaper.reshape and bidi.algorithm.get_display *)
  reshape : str -> str;
  get_display : str -> str;
  (* whether a page.insert_text call made under try/except returns *)
  insert_text_ok : call -> bool
}.

Definition black : Z * Z * Z := (0, 0, 0).
Definition white : Z * Z * Z := (1, 1, 1).

(** A call the source makes outside any [try]: it is taken to return. *)
Definition page_call (c : call) : M unit :=
  fun pg => (Ok tt, pg ++ [Event c true]).

(** [try: page.insert_text(...)  except Exception: ...], yielding whether
    the call returned. *)
Definition try_insert_text (E : env) (c : call) : M bool :=
  fun pg => (Ok (insert_text_ok E c), pg ++ [Event c (insert_text_ok E c)]).

(** [if key in FIELD_COORDINATES: x, y = FIELD_COORDINATES[key]; body] *)
Definition at_coordinate (key : str) (body : Z -> Z -> M unit) : M unit :=
  match FIELD_COORDINATES !! key with
  | Some (x, y) => body x y
  | None => skip
  end.

(** [for a in l: body(a)] *)
Fixpoint for_each {A} (l : list A) (body : A -> M unit) : M unit :=
  match l with
  | [] => skip
  | a :: l' => body a;; for_each l' body
  end.

(** ** fill_visa_form.py *)

Fixpoint get_nested_loop (value : json) (keys : list str) : json :=
  match keys with
  | [] => value
  | key :: keys' =>
      match value with
      | JDict d =>
          match d !! key with
          | Some v => get_nested_loop v keys'
          | None => JNull
          end
      | _ => JNull
      end
  end.

Definition get_nested_value (data : gmap str json) (path : str) : json :=
  get_nested_loop (JDict data) (PyStr.split 46 path).

(** The loop of [extract_full_name] over the three name parts. *)
Fixpoint name_parts_loop (parts : list json) (name_parts : list str)
  : result (list str) :=
  match parts with
  | [] => Ok name_parts
  | part :: parts' =>
      if truthy part then
        match part with
        | JStr s =>
            if bool_decide (PyStr.upper s ≠ u "N/A")
            then name_parts_loop parts' (name_parts ++ [s])
            else name_parts_loop parts' name_parts
        | _ => Raise AttributeError   (* no [upper] method *)
        end
      else name_parts_loop parts' name_parts
  end.

Definition extract_full_name (data : gmap str json) : result str :=
  let personal := default (JDict ∅) (data !! u "personal_info") in
  first_name ← py_get personal (u "first_name") (JStr []);
  middle_name ← py_get personal (u "middle_name") (JStr []);
  last_name ← py_get personal (u "last_name") (JStr []);
  name_parts ← name_parts_loop [first_name; middle_name; last_name] [];
  Ok (PyStr.join (u " ") name_parts).

Definition insert_text (x y : Z) (text : str) (fontsize : Z) : M unit :=
  if nonblank text then
    page_call (InsertText (x, y) text (FontConfig None FONT_NAME) fontsize black)
  else skip.

Definition insert_checkbox (x y : Z) : M unit :=
  page_call (InsertText (x, y) CHECKBOX_CHAR (FontConfig None FONT_NAME)
                        CHECKBOX_FONT_SIZE black).

Definition redact_area (x y width height : Z) : M unit :=
  page_call (DrawRect (x, y, x + width, y + height) white white).

Definition redact_existing_dates : M unit := redact_area 328 382 215 12.

Definition fill_checkboxes (data : gmap str json) : M unit :=
  let visa := default (JDict ∅) (data !! u "visa_info") in
  visa_type ← lift (py_get visa (u "type") (JStr []) ≫= py_lower);
  match (CHECKBOX_MAPPINGS !!! u "visa_type") !! visa_type with
  | Some checkbox_key => at_coordinate checkbox_key insert_checkbox
  | None => skip
  end;;
  let visa_duration :=
    if bool_decide (visa_type ∈ [u "multiple_entry"; u "multiple"])
    then u "six_months" else u "three_months" in
  match (CHECKBOX_MAPPINGS !!! u "visa_duration") !! visa_duration with
  | Some checkbox_key => at_coordinate checkbox_key insert_checkbox
  | None => skip
  end.

Definition translate_to_arabic (E : env) (text : json) : result json :=
  if negb (TRANSLATION_SUPPORT E) then Ok text
  else if negb (truthy text) then Ok text
  else match text with
       | JStr s =>
           if negb (PyStr.nonempty (PyStr.strip s)) then Ok text
           else match translate E s with
                | Some translated => Ok (JStr translated)
                | None => Ok text
                end
       | _ => Raise AttributeError
       end.

Definition reshape_arabic_text (E : env) (text : str) : str :=
  if ARABIC_SUPPORT E then get_display E (reshape E text) else text.

Definition font_attempts : list font_config :=
  [ FontConfig (Some (u "/System/Library/Fonts/GeezaPro.ttc")) (u "GeezaPro");
    FontConfig (Some (u "/System/Library/Fonts/SFArabic.ttf")) (u "SFArabic");
    FontConfig (Some (u "/usr/share/fonts/truetype/dejavu/DejaVuSans.ttf"))
               (u "DejaVuSans");
    FontConfig
      (Some (u "/usr/share/fonts/truetype/liberation/LiberationSans-Regular.ttf"))
      (u "LiberationSans");
    FontConfig
      (Some (u "/usr/share/fonts/truetype/noto/NotoSansArabic-Regular.ttf"))
      (u "NotoSansArabic");
    FontConfig (Some (u "/usr/share/fonts/truetype/freefont/FreeSans.ttf"))
               (u "FreeSans");
    FontConfig None (u "figo") ].

(** The [for font_config in font_attempts] loop with its [break]; the
    result is [text_inserted]. *)
Fixpoint try_fonts (E : env) (point : Z * Z) (display_text : str)
    (fontsize : Z) (fonts : list font_config) : M bool :=
  match fonts with
  | [] => mret false
  | font_config :: fonts' =>
      ok ← try_insert_text E
             (InsertText point display_text font_config fontsize black);
      if ok : bool then mret true
      else try_fonts E point display_text fontsize fonts'
  end.

Definition insert_arabic_text (E : env) (x y : Z) (text : str) (fontsize : Z)
  : M unit :=
  if nonblank text then
    let display_text := reshape_arabic_text E text in
    let point := (x, y) in
    text_inserted ← try_fonts E point display_text fontsize font_attempts;
    if text_inserted : bool then skip
    else
      try_insert_text E
        (InsertText point display_text (FontConfig None (u "helv"))
                    fontsize black);;
      skip
  else skip.

(** ** Sample records and environments *)

Module Samples.

(** No optional library, no usable font. *)
Definition env_bare : env :=
  Env false false (fun _ => None) (fun s => s) (fun s => s) (fun _ => false).

(** No translation, no shaping; only the built-in [figo] font draws. *)
Definition env_figo : env :=
  Env false false (fun _ => None) (fun s => s) (fun s => s)
      (fun c => match c with
                | InsertText _ _ f _ _ => bool_decide (fontname f = u "figo")
                | DrawRect _ _ _ => false
                end).

(** Shaping available, with a display order that reverses the code points
    (as the bidi algorithm does on right-to-left text); every font draws. *)
Definition env_shaping : env :=
  Env false true (fun _ => None) (fun s => s) (@rev N) (fun _ => true).

(** The translation library is there but every call raises. *)
Definition env_offline : env :=
  Env true false (fun _ => None) (fun s => s) (fun s => s) (fun _ => true).

Definition repr_placeholder : json -> str := fun _ => u "...".

Definition labels : gmap str str :=
  list_to_map [ (u "single", u "SINGLE ENTRY"); (u "multiple", u "MULTIPLE ENTRY") ].

Definition visa (t : json) : gmap str json :=
  {[ u "visa_info" := JDict {[ u "type" := t ]} ]}.

Definition names (first middle last : json) : gmap str json :=
  {[ u "personal_info" :=
       JDict (list_to_map [ (u "first_name", first);
                            (u "middle_name", middle);
                            (u "last_name", last) ]) ]}.

Definition trip (departure arrival : json) : gmap str json :=
  {[ u "trip_info" :=
       JDict (list_to_map [ (u "departure_date_from_dubai", departure);
                            (u "arrival_date_to_dubai", arrival) ]) ]}.

Definition accompanied (name : json) : gmap str json :=
  {[ u "accompany_name" := name ]}.

Definition mobile (v : json) : gmap str json :=
  {[ u "personal_info" := JDict {[ u "mobile" := v ]} ]}.

End Samples.

(** Further sample values. *)
Module MoreSamples.

(** The translation library is loaded and answers U+0645 U+0627 U+0631
    U+064A to every request; no font file is usable but "helv" draws. *)
Definition env_translating : env :=
  Env true false (fun _ => Some [0x645; 0x627; 0x631; 0x64A]%N)
      (fun s => s) (fun s => s)
      (fun c => match c with
                | InsertText _ _ f _ _ => bool_decide (fontname f = u "helv")
                | DrawRect _ _ _ => false
                end).

Definition trip_starts (start departure : json) : gmap str json :=
  {[ u "trip_info" :=
       JDict (list_to_map [ (u "start_date", start);
                            (u "departure_date_from_dubai", departure) ]) ]}.

End MoreSamples.

Section FillTextFields.

(** [fill_visa_form.py] imports these two names from [field_config], whose
    source does not define them: they are parameters here. *)
Variable VISA_TYPE_LABELS : gmap str str.
Variable BOTTOM_LABEL_FONT_SIZE : Z.

(** [str(v)] of a float, a list or a dict is Python's [repr]; the program
    only passes it on, so it is a parameter. *)
Variable py_repr : json -> str.

(** [str(v)] *)
Definition py_str (v : json) : str :=
  match v with
  | JStr s => s
  | JNull => u "None"
  | JBool true => u "True"
  | JBool false => u "False"
  | JInt z => u (NilZero.string_of_int (Z.to_int z))
  | JFloat _ _ | JList _ | JDict _ => py_repr v
  end.

(** [prefix + v] with a [str] on the left. *)
Definition py_concat (prefix : str) (v : json) : result str :=
  match v with
  | JStr s => Ok (prefix ++ s)
  | _ => Raise TypeError
  end.

(** The body of the loop over [TEXT_FIELD_MAPPINGS.items()]. *)
Definition fill_text_field (data : gmap str json) (entry : str * str)
  : M unit :=
  let '(json_path, coord_key) := entry in
  let value := get_nested_value data json_path in
  if truthy value then
    at_coordinate coord_key (fun x y => insert_text x y (py_str value) FONT_SIZE)
  else skip.

(** [departure_date_from_dubai] to both [trip_start_date] and
    [arrival_date]. *)
Definition fill_departure_from_dubai (data : gmap str json) : M unit :=
  let departure_from_dubai :=
    get_nested_value data (u "trip_info.departure_date_from_dubai") in
  if truthy departure_from_dubai then
    at_coordinate (u "trip_start_date") (fun x y =>
      insert_text x y (py_str departure_from_dubai) FONT_SIZE);;
    at_coordinate (u "arrival_date") (fun x y =>
      insert_text x y (py_str departure_from_dubai) FONT_SIZE)
  else skip.

(** [arrival_date_to_dubai] to both [trip_end_date] and [departure_date]. *)
Definition fill_arrival_to_dubai (data : gmap str json) : M unit :=
  let arrival_to_dubai :=
    get_nested_value data (u "trip_info.arrival_date_to_dubai") in
  if truthy arrival_to_dubai then
    at_coordinate (u "trip_end_date") (fun x y =>
      insert_text x y (py_str arrival_to_dubai) FONT_SIZE);;
    at_coordinate (u "departure_date") (fun x y =>
      insert_text x y (py_str arrival_to_dubai) FONT_SIZE)
  else skip.

(** [accompany_name], translated and prefixed, for the accompanied-by
    field. *)
Definition fill_accompanied_by (E : env) (data : gmap str json) : M unit :=
  let accompany_name := get_nested_value data (u "accompany_name") in
  if truthy accompany_name then
    at_coordinate (u "accompanied_by_arabic") (fun x y =>
      translated_name ← lift (translate_to_arabic E accompany_name);
      arabic_text ← lift (py_concat ARABIC_ACCOMPANIED_BY_PREFIX translated_name);
      insert_arabic_text E x y arabic_text BOTTOM_LABEL_FONT_SIZE)
  else skip.

(** The visa type pricing label. *)
Definition fill_visa_type_label (data : gmap str json) : M unit :=
  let visa_type := get_nested_value data (u "visa_info.type") in
  if truthy visa_type then
    at_coordinate (u "visa_type_label") (fun x y =>
      visa_type_lower ← lift (py_lower visa_type);
      match VISA_TYPE_LABELS !! visa_type_lower with
      | Some label_text => insert_text x y label_text BOTTOM_LABEL_FONT_SIZE
      | None => skip
      end)
  else skip.

Definition fill_text_fields (E : env) (data : gmap str json) : M unit :=
  for_each TEXT_FIELD_MAPPINGS (fill_text_field data);;
  fill_departure_from_dubai data;;
  fill_arrival_to_dubai data;;
  fill_accompanied_by E data;;
  fill_visa_type_label data.

(** The three steps both entry points run on the first page of the
    template. *)
Definition fill_page (E : env) (data : gmap str json) : M unit :=
  redact_existing_dates;;
  fill_checkboxes data;;
  fill_text_fields E data.

(** [doc.tobytes(...)]: the document as it stands. *)
Definition tobytes : M page := fun pg => (Ok pg, pg).

Definition generate_filled_pdf_bytes (E : env) (data : gmap str json)
  : M (page * str) :=
  fill_page E data;;
  pdf_bytes ← tobytes;
  full_name ← lift (extract_full_name data);
  mret (pdf_bytes, full_name).

Definition fill_visa_form (E : env) (data : gmap str json) : M unit :=
  fill_page E data.

(** ** Vocabulary of the statements *)

(** A checkbox mark on the page and a line of text in the default font. *)
Definition checkbox_mark (point : Z * Z) : event :=
  Event (InsertText point CHECKBOX_CHAR (FontConfig None FONT_NAME)
                    CHECKBOX_FONT_SIZE black) true.

Definition text_at (point : Z * Z) (text : str) (fontsize : Z) : event :=
  Event (InsertText point text (FontConfig None FONT_NAME) fontsize black) true.

(** The visa type the record states: the empty string when [visa_info] or
    its [type] is absent, and nothing when either has another type than
    the source expects. *)
Definition stated_visa_type (data : gmap str json) : option str :=
  match data !! u "visa_info" with
  | None => Some []
  | Some (JDict visa) =>
      match visa !! u "type" with
      | None => Some []
      | Some (JStr t) => Some t
      | Some _ => None
      end
  | Some _ => None
  end.

(** The box of the form for a lowercased visa type, if it is a recognized
    one, and the box of the duration that goes with it. *)
Definition visa_type_box (t : str) : option (Z * Z) :=
  if bool_decide (t ∈ [u "single_entry"; u "single"]) then Some (68, 577)
  else if bool_decide (t ∈ [u "two_entry"; u "double"]) then Some (68, 599)
  else if bool_decide (t ∈ [u "multiple_entry"; u "multiple"]) then Some (68, 620)
  else None.

Definition three_months_box : Z * Z := (271, 584).
Definition six_months_box : Z * Z := (353, 583).

(** Traversal of a record along a list of keys fails at some segment: the
    current value is not a dictionary, or the key is absent. *)
Inductive traversal_fails : json -> list str -> Prop :=
| fails_not_dict v key keys :
    (forall d, v <> JDict d) -> traversal_fails v (key :: keys)
| fails_absent d key keys :
    d !! key = None -> traversal_fails (JDict d) (key :: keys)
| fails_below d key v keys :
    d !! key = Some v -> traversal_fails v keys ->
    traversal_fails (JDict d) (key :: keys).

(** A string of whitespace characters only (the empty one included). *)
Definition whitespace_only (s : str) : bool := forallb PyStr.isspace s.

(** Equal to "N/A" when case is ignored. *)
Definition is_na (s : str) : bool :=
  bool_decide (s ∈ [u "N/A"; u "N/a"; u "n/A"; u "n/a"]).

(** What a name part contributes to the full name: itself when it is a
    non-empty string other than N/A. *)
Definition kept_part (v : json) : option str :=
  match v with
  | JStr s => if PyStr.nonempty s && negb (is_na s) then Some s else None
  | _ => None
  end.

(** A name part the source can handle: a falsy value or a string. *)
Definition part_ok (v : json) : Prop :=
  truthy v = false \/ exists s, v = JStr s.

(** The [personal_info] group: empty when absent, nothing when it is not a
    dictionary. *)
Definition personal_info_of (data : gmap str json) : option (gmap str json) :=
  match data !! u "personal_info" with
  | None => Some ∅
  | Some (JDict d) => Some d
  | Some _ => None
  end.

(** The draw call of a candidate font in [insert_arabic_text]. *)
Definition attempt (point : Z * Z) (display_text : str) (fontsize : Z)
    (font : font_config) : call :=
  InsertText point display_text font fontsize black.

Definition helv : font_config := FontConfig None (u "helv").

Definition redaction : event :=
  Event (DrawRect (328, 382, 543, 394) white white) true.

(** The type checkbox the two table lookups of [fill_checkboxes] select. *)
Definition type_checkbox_point (t : str) : option (Z * Z) :=
  checkbox_key ← (CHECKBOX_MAPPINGS !!! u "visa_type") !! t;
  FIELD_COORDINATES !! checkbox_key.

(** The attempts that failed, one per font, in order. *)
Definition failed_draws (draw : font_config -> call) (fonts : list font_config)
  : list event :=
  (fun font => Event (draw font) false) <$> fonts.

(** A computation that only adds to the page. *)
Definition appends {A} (c : M A) : Prop :=
  forall pg, exists evs, snd (c pg) = pg ++ evs.


(** Traversal of a value along a list of keys succeeds and ends on a
    value. *)
Inductive reaches : json -> list str -> json -> Prop :=
| reaches_here v : reaches v [] v
| reaches_below d key v keys w :
    d !! key = Some v -> reaches v keys w ->
    reaches (JDict d) (key :: keys) w.

(** A point of the form's page, 612 x 792 points. *)
Definition on_page (p : Z * Z) : Prop :=
  0 <= p.1 <= 612 /\ 0 <= p.2 <= 792.

Definition on_pageb (p : Z * Z) : bool :=
  (0 <=? p.1) && (p.1 <=? 612) && (0 <=? p.2) && (p.2 <=? 792).

(** A computation whose result and added events do not depend on what is
    already on the page. *)
Definition framed {A} (c : M A) : Prop :=
  forall pg, c pg = (fst (c []), pg ++ snd (c [])).

(** A computation that returns normally from every page, and only adds
    to it. *)
Definition returns {A} (c : M A) : Prop :=
  forall pg, exists a evs, c pg = (Ok a, pg ++ evs).

(** The five boxes [fill_checkboxes] can mark. *)
Definition visa_boxes : list (Z * Z) :=
  [(68, 577); (68, 599); (68, 620); three_months_box; six_months_box].

(** The record's [accompany_name] is one the accompanied-by step can
    handle: falsy, or a string. *)
Definition accompany_ok (data : gmap str json) : bool :=
  match get_nested_value data (u "accompany_name") with
  | JStr _ => true
  | v => negb (truthy v)
  end.

(** The name parts [extract_full_name] reads, when [personal_info] is
    absent or a dictionary. *)
Definition name_parts_of (data : gmap str json) : option (list json) :=
  personal ← personal_info_of data;
  Some [ default (JStr []) (personal !! u "first_name");
         default (JStr []) (personal !! u "middle_name");
         default (JStr []) (personal !! u "last_name") ].

Definition part_okb (v : json) : bool :=
  match v with
  | JStr _ => true
  | _ => negb (truthy v)
  end.

(** Whether [extract_full_name] can handle the record's name parts. *)
Definition name_parts_ok (data : gmap str json) : bool :=
  match name_parts_of data with
  | Some parts => forallb part_okb parts
  | None => false
  end.

(** The part of [fill_text_fields] that runs before the accompanied-by
    step. *)
Definition fields_before_accompanied (data : gmap str json) : M unit :=
  for_each TEXT_FIELD_MAPPINGS (fill_text_field data);;
  fill_departure_from_dubai data;;
  fill_arrival_to_dubai data.

(** Inside the rectangle [redact_existing_dates] whitens. *)
Definition in_redacted_area (p : Z * Z) : bool :=
  (328 <=? p.1) && (p.1 <=? 328 + 215) && (382 <=? p.2) && (p.2 <=? 382 + 12).

(** * Properties *)

(** ** Running the monad *)

Lemma bind_run {A B} (c : M A) (f : A -> M B) (pg : page) :
  (c ≫= f) pg =
  match c pg with
  | (Ok a, pg') => f a pg'
  | (Raise e, pg') => (Raise e, pg')
  end.
Proof. reflexivity. Qed.

Lemma lift_run {A} (r : result A) (pg : page) : lift r pg = (r, pg).
Proof. reflexivity. Qed.

Lemma skip_run (pg : page) : skip pg = (Ok tt, pg).
Proof. reflexivity. Qed.

Lemma for_each_app {A} (l1 l2 : list A) (body : A -> M unit) (pg : page) :
  for_each (l1 ++ l2) body pg = (for_each l1 body;; for_each l2 body) pg.
Proof.
  revert pg. induction l1 as [|a l1 IH]; intros pg; simpl.
  - reflexivity.
  - rewrite !bind_run. destruct (body a pg) as [[[]|e] pg1]; [|reflexivity].
    rewrite IH, bind_run. reflexivity.
Qed.

(** ** Strings *)

Lemma lstrip_nil (s : str) :
  PyStr.lstrip s = [] <-> whitespace_only s = true.
Proof.
  unfold whitespace_only. induction s as [|c s IH]; simpl.
  - tauto.
  - destruct (PyStr.isspace c); simpl; [exact IH|].
    split; discriminate.
Qed.

Lemma whitespace_only_lstrip (s : str) :
  whitespace_only (PyStr.lstrip s) = whitespace_only s.
Proof.
  unfold whitespace_only. induction s as [|c s IH]; simpl; [reflexivity|].
  destruct (PyStr.isspace c) eqn:Hc; simpl; [exact IH|].
  rewrite Hc. reflexivity.
Qed.

Lemma whitespace_only_rev (s : str) :
  whitespace_only (rev s) = whitespace_only s.
Proof.
  unfold whitespace_only. apply eq_true_iff_eq.
  rewrite !forallb_forall. split; intros H c Hc; apply H.
  - apply in_rev in Hc. exact Hc.
  - apply in_rev. exact Hc.
Qed.

Lemma strip_nil (s : str) :
  PyStr.strip s = [] <-> whitespace_only s = true.
Proof.
  unfold PyStr.strip, PyStr.rstrip.
  rewrite <- (whitespace_only_lstrip s), <- (whitespace_only_rev (PyStr.lstrip s)).
  rewrite <- lstrip_nil. split; intros H.
  - apply (f_equal (@rev N)) in H. rewrite rev_involutive in H. exact H.
  - rewrite H. reflexivity.
Qed.

Lemma nonblank_spec (s : str) : nonblank s = negb (whitespace_only s).
Proof.
  unfold nonblank. destruct s as [|c s]; [reflexivity|].
  change (PyStr.nonempty (c :: s)) with true. rewrite andb_true_l.
  destruct (whitespace_only (c :: s)) eqn:Hw.
  - apply strip_nil in Hw. rewrite Hw. reflexivity.
  - destruct (PyStr.strip (c :: s)) eqn:Hs; [|reflexivity].
    apply strip_nil in Hs. congruence.
Qed.

Lemma nonblank_app_l (s1 s2 : str) : nonblank s1 = true -> nonblank (s1 ++ s2) = true.
Proof.
  rewrite !nonblank_spec. unfold whitespace_only. rewrite forallb_app.
  destruct (forallb PyStr.isspace s1); [discriminate|reflexivity].
Qed.

(** ** Text and checkbox writes *)

Lemma insert_text_nonblank (x y : Z) (text : str) (fontsize : Z) (pg : page) :
  nonblank text = true ->
  insert_text x y text fontsize pg = (Ok tt, pg ++ [text_at (x, y) text fontsize]).
Proof. intros H. unfold insert_text. rewrite H. reflexivity. Qed.

Lemma insert_text_blank (x y : Z) (text : str) (fontsize : Z) (pg : page) :
  nonblank text = false ->
  insert_text x y text fontsize pg = (Ok tt, pg).
Proof. intros H. unfold insert_text. rewrite H. reflexivity. Qed.

Lemma at_coordinate_found (key : str) (body : Z -> Z -> M unit) (x y : Z) :
  FIELD_COORDINATES !! key = Some (x, y) -> at_coordinate key body = body x y.
Proof. intros H. unfold at_coordinate. rewrite H. reflexivity. Qed.

Lemma at_coordinate_blank (key : str) (text : str) (fontsize : Z) (pg : page) :
  nonblank text = false ->
  at_coordinate key (fun x y => insert_text x y text fontsize) pg = (Ok tt, pg).
Proof.
  intros H. unfold at_coordinate.
  destruct (FIELD_COORDINATES !! key) as [[x y]|]; [|reflexivity].
  apply insert_text_blank, H.
Qed.

Lemma traversal_fails_null (v : json) (keys : list str) :
  traversal_fails v keys -> get_nested_loop v keys = JNull.
Proof.
  induction 1 as [v key keys Hv|d key keys Hk|d key v keys Hk _ IH]; simpl.
  - destruct v; try reflexivity. destruct (Hv d). reflexivity.
  - rewrite Hk. reflexivity.
  - rewrite Hk. exact IH.
Qed.

Lemma fill_text_field_falsy (data : gmap str json) (json_path coord_key : str)
    (pg : page) :
  truthy (get_nested_value data json_path) = false ->
  fill_text_field data (json_path, coord_key) pg = (Ok tt, pg).
Proof. intros H. unfold fill_text_field. rewrite H. reflexivity. Qed.


(** ** The checkbox tables *)

Lemma visa_type_table :
  CHECKBOX_MAPPINGS !!! u "visa_type" =
  (<[u "single_entry" := u "checkbox_single_entry"]>
     (<[u "single" := u "checkbox_single_entry"]>
        (<[u "two_entry" := u "checkbox_two_entry"]>
           (<[u "double" := u "checkbox_two_entry"]>
              (<[u "multiple_entry" := u "checkbox_multiple_entry"]>
                 (<[u "multiple" := u "checkbox_multiple_entry"]> ∅)))))
   : gmap str str).
Proof. vm_compute. reflexivity. Qed.

Lemma type_checkbox_point_box (t : str) :
  type_checkbox_point t = visa_type_box t
  /\ (is_Some ((CHECKBOX_MAPPINGS !!! u "visa_type") !! t) <-> is_Some (visa_type_box t)).
Proof.
  unfold type_checkbox_point.
  destruct (decide (t = u "single_entry")) as [->|N1];
    [split; [vm_compute; reflexivity | split; intros _; vm_compute; eauto]|].
  destruct (decide (t = u "single")) as [->|N2];
    [split; [vm_compute; reflexivity | split; intros _; vm_compute; eauto]|].
  destruct (decide (t = u "two_entry")) as [->|N3];
    [split; [vm_compute; reflexivity | split; intros _; vm_compute; eauto]|].
  destruct (decide (t = u "double")) as [->|N4];
    [split; [vm_compute; reflexivity | split; intros _; vm_compute; eauto]|].
  destruct (decide (t = u "multiple_entry")) as [->|N5];
    [split; [vm_compute; reflexivity | split; intros _; vm_compute; eauto]|].
  destruct (decide (t = u "multiple")) as [->|N6];
    [split; [vm_compute; reflexivity | split; intros _; vm_compute; eauto]|].
  assert (Hnone : (CHECKBOX_MAPPINGS !!! u "visa_type") !! t = None).
  { rewrite visa_type_table.
    rewrite !lookup_insert_ne by congruence. apply lookup_empty. }
  assert (Hbox : visa_type_box t = None).
  { unfold visa_type_box.
    rewrite !bool_decide_eq_false_2; [reflexivity| |  |];
      rewrite !elem_of_cons, elem_of_nil; tauto. }
  rewrite Hnone, Hbox. split; [reflexivity|].
  split; intros [? ?]; discriminate.
Qed.


Lemma type_mark_run (t : str) (pg : page) :
  match (CHECKBOX_MAPPINGS !!! u "visa_type") !! t with
  | Some checkbox_key => at_coordinate checkbox_key insert_checkbox
  | None => skip
  end pg =
  (Ok tt, pg ++ match type_checkbox_point t with
                | Some box => [checkbox_mark box]
                | None => []
                end).
Proof.
  unfold type_checkbox_point, at_coordinate.
  destruct ((CHECKBOX_MAPPINGS !!! u "visa_type") !! t) as [k|];
    cbn [mbind option_bind].
  - destruct (FIELD_COORDINATES !! k) as [[x y]|].
    + reflexivity.
    + rewrite skip_run, app_nil_r. reflexivity.
  - rewrite skip_run, app_nil_r. reflexivity.
Qed.

Lemma duration_mark_run (six : bool) (pg : page) :
  match (CHECKBOX_MAPPINGS !!! u "visa_duration")
          !! (if six then u "six_months" else u "three_months") with
  | Some checkbox_key => at_coordinate checkbox_key insert_checkbox
  | None => skip
  end pg =
  (Ok tt, pg ++ [checkbox_mark (if six then six_months_box else three_months_box)]).
Proof. destruct six; vm_compute; reflexivity. Qed.

Lemma stated_visa_type_lower (data : gmap str json) (t : str) :
  stated_visa_type data = Some t ->
  py_get (default (JDict ∅) (data !! u "visa_info")) (u "type") (JStr [])
    ≫= py_lower = Ok (PyStr.lower t).
Proof.
  unfold stated_visa_type. intros H.
  destruct (data !! u "visa_info") as [v|]; simpl.
  - destruct v as [| | | | |l|d]; try discriminate. simpl.
    destruct (d !! u "type") as [w|]; simpl.
    + destruct w; try discriminate. injection H as ->. reflexivity.
    + injection H as <-. reflexivity.
  - injection H as <-. reflexivity.
Qed.

(** The marks of [fill_checkboxes] on a well-typed record: when the record
    states its visa type as a string, or not at all, [fill_checkboxes]
    returns normally and marks exactly one duration checkbox, after at most
    one type checkbox: the six-month box if the lowercased type is
    "multiple_entry" or "multiple", the three-month box otherwise (an
    absent or unrecognized type included); the type box is marked exactly
    for the six recognized values of the visa-type table. *)
Theorem fill_checkboxes_marks (data : gmap str json) (t : str) (pg : page) :
  stated_visa_type data = Some t ->
  let lt := PyStr.lower t in
  fill_checkboxes data pg =
    (Ok tt,
     pg ++ match visa_type_box lt with
           | Some box => [checkbox_mark box]
           | None => []
           end
        ++ [checkbox_mark
              (if bool_decide (lt ∈ [u "multiple_entry"; u "multiple"])
               then six_months_box else three_months_box)])
  /\ (is_Some (visa_type_box lt)
      <-> is_Some ((CHECKBOX_MAPPINGS !!! u "visa_type") !! lt))
  /\ FIELD_COORDINATES !! u "checkbox_six_months" = Some six_months_box
  /\ FIELD_COORDINATES !! u "checkbox_three_months" = Some three_months_box.
Proof.
  intros Hty lt.
  destruct (type_checkbox_point_box lt) as [Hbox Hrec].
  split; [|split; [symmetry; exact Hrec | split; vm_compute; reflexivity]].
  unfold fill_checkboxes.
  rewrite bind_run, (stated_visa_type_lower _ _ Hty), lift_run.
  fold lt. rewrite bind_run, type_mark_run, Hbox.
  cbv zeta. rewrite duration_mark_run, <- app_assoc. reflexivity.
Qed.


(** ** Text fields *)

Lemma for_each_skips (data : gmap str json) (entry : str * str)
    (before after : list (str * str)) (pg : page) :
  (forall pg', fill_text_field data entry pg' = (Ok tt, pg')) ->
  for_each (before ++ entry :: after) (fill_text_field data) pg =
  for_each (before ++ after) (fill_text_field data) pg.
Proof.
  intros Hskip. rewrite !for_each_app, !bind_run.
  destruct (for_each before (fill_text_field data) pg) as [[[]|e] pg1];
    [|reflexivity].
  cbn [for_each]. rewrite bind_run, Hskip. reflexivity.
Qed.

(** C2: for a pair of the text-field mapping, when traversal of the record
    along the dotted path fails at some segment (the value reached is not a
    dictionary, or the key is absent), the field's step writes nothing and
    raises nothing, and the loop over the mapping runs as it does on the
    remaining pairs. *)
Theorem missing_path_is_skipped (data : gmap str json)
    (json_path coord_key : str) (before after : list (str * str)) (pg : page) :
  TEXT_FIELD_MAPPINGS = before ++ (json_path, coord_key) :: after ->
  traversal_fails (JDict data) (PyStr.split 46 json_path) ->
  fill_text_field data (json_path, coord_key) pg = (Ok tt, pg)
  /\ for_each TEXT_FIELD_MAPPINGS (fill_text_field data) pg =
     for_each (before ++ after) (fill_text_field data) pg.
Proof.
  intros Hmap Hfail.
  assert (Hskip : forall pg', fill_text_field data (json_path, coord_key) pg' = (Ok tt, pg')).
  { intros pg'. apply fill_text_field_falsy. unfold get_nested_value.
    rewrite (traversal_fails_null _ _ Hfail). reflexivity. }
  split; [apply Hskip|].
  rewrite Hmap. apply for_each_skips, Hskip.
Qed.

(** C10: for a pair of the text-field mapping whose value in the record is
    falsy (0, False, the empty string, null, an empty list or dict) or a
    whitespace-only string, [fill_text_fields] writes nothing for the field
    and raises nothing: the step leaves the page as the step of a record
    where the path is absent does, and the loop over the mapping runs as it
    does on the remaining pairs. *)
Theorem falsy_value_is_skipped (data : gmap str json)
    (json_path coord_key : str) (before after : list (str * str)) (pg : page) :
  TEXT_FIELD_MAPPINGS = before ++ (json_path, coord_key) :: after ->
  (truthy (get_nested_value data json_path) = false
   \/ exists s, get_nested_value data json_path = JStr s
                /\ whitespace_only s = true) ->
  fill_text_field data (json_path, coord_key) pg = (Ok tt, pg)
  /\ (forall absent : gmap str json,
        traversal_fails (JDict absent) (PyStr.split 46 json_path) ->
        fill_text_field absent (json_path, coord_key) pg =
        fill_text_field data (json_path, coord_key) pg)
  /\ for_each TEXT_FIELD_MAPPINGS (fill_text_field data) pg =
     for_each (before ++ after) (fill_text_field data) pg.
Proof.
  intros Hmap Hval.
  assert (Hskip : forall pg',
             fill_text_field data (json_path, coord_key) pg' = (Ok tt, pg')).
  { intros pg'. destruct Hval as [Hfalsy|[s [Hs Hws]]].
    - apply fill_text_field_falsy, Hfalsy.
    - unfold fill_text_field. rewrite Hs.
      destruct (truthy (JStr s)); [|reflexivity].
      apply at_coordinate_blank. cbn [py_str].
      rewrite nonblank_spec, Hws. reflexivity. }
  split; [apply Hskip|]. split.
  - intros absent Habs. rewrite Hskip.
    apply fill_text_field_falsy. unfold get_nested_value.
    rewrite (traversal_fails_null _ _ Habs). reflexivity.
  - rewrite Hmap. apply for_each_skips, Hskip.
Qed.

Lemma coordinates_of_date_fields :
  FIELD_COORDINATES !! u "trip_start_date" = Some (328, 393)
  /\ FIELD_COORDINATES !! u "arrival_date" = Some (72, 544)
  /\ FIELD_COORDINATES !! u "trip_end_date" = Some (420, 393)
  /\ FIELD_COORDINATES !! u "departure_date" = Some (328, 544).
Proof. repeat split; vm_compute; reflexivity. Qed.

Lemma write_twice (key1 key2 : str) (p1 p2 : Z * Z) (text : str) (pg : page) :
  FIELD_COORDINATES !! key1 = Some p1 ->
  FIELD_COORDINATES !! key2 = Some p2 ->
  nonblank text = true ->
  (at_coordinate key1 (fun x y => insert_text x y text FONT_SIZE);;
   at_coordinate key2 (fun x y => insert_text x y text FONT_SIZE)) pg =
  (Ok tt, pg ++ [text_at p1 text FONT_SIZE; text_at p2 text FONT_SIZE]).
Proof.
  destruct p1 as [x1 y1], p2 as [x2 y2]. intros H1 H2 Htext.
  rewrite bind_run, (at_coordinate_found _ _ _ _ H1), (at_coordinate_found _ _ _ _ H2).
  rewrite !insert_text_nonblank by exact Htext.
  rewrite <- app_assoc. reflexivity.
Qed.

Lemma skip_twice (key1 key2 : str) (text : str) (pg : page) :
  nonblank text = false ->
  (at_coordinate key1 (fun x y => insert_text x y text FONT_SIZE);;
   at_coordinate key2 (fun x y => insert_text x y text FONT_SIZE)) pg =
  (Ok tt, pg).
Proof.
  intros Htext. rewrite bind_run, !at_coordinate_blank by exact Htext.
  reflexivity.
Qed.

(** C9 (as amended): a truthy [trip_info.departure_date_from_dubai] whose
    text is not blank after trimming is written at [trip_start_date] and at
    [arrival_date], and a truthy [trip_info.arrival_date_to_dubai] whose
    text is not blank at [trip_end_date] and at [departure_date]; a value
    that is missing, falsy or blank writes nothing; the two steps do not
    depend on each other. *)
Theorem dates_from_dubai_written_twice (data : gmap str json) (pg : page) :
  let departure := get_nested_value data (u "trip_info.departure_date_from_dubai") in
  let arrival := get_nested_value data (u "trip_info.arrival_date_to_dubai") in
  (truthy departure = true -> nonblank (py_str departure) = true ->
   fill_departure_from_dubai data pg =
   (Ok tt, pg ++ [text_at (328, 393) (py_str departure) FONT_SIZE;
                  text_at (72, 544) (py_str departure) FONT_SIZE]))
  /\ (truthy arrival = true -> nonblank (py_str arrival) = true ->
      fill_arrival_to_dubai data pg =
      (Ok tt, pg ++ [text_at (420, 393) (py_str arrival) FONT_SIZE;
                     text_at (328, 544) (py_str arrival) FONT_SIZE]))
  /\ (truthy departure = false \/ nonblank (py_str departure) = false ->
      fill_departure_from_dubai data pg = (Ok tt, pg))
  /\ (truthy arrival = false \/ nonblank (py_str arrival) = false ->
      fill_arrival_to_dubai data pg = (Ok tt, pg)).
Proof.
  intros departure arrival.
  destruct coordinates_of_date_fields as (Hs & Ha & He & Hd).
  unfold fill_departure_from_dubai, fill_arrival_to_dubai.
  fold departure arrival.
  repeat split.
  - intros -> Htext. apply write_twice; assumption.
  - intros -> Htext. apply write_twice; assumption.
  - intros [->| Htext]; [reflexivity|].
    destruct (truthy departure); [|reflexivity]. apply skip_twice, Htext.
  - intros [->| Htext]; [reflexivity|].
    destruct (truthy arrival); [|reflexivity]. apply skip_twice, Htext.
Qed.


(** ** The font fallback chain *)

Lemma drawn_calls_app (pg1 pg2 : page) :
  drawn_calls (pg1 ++ pg2) = drawn_calls pg1 ++ drawn_calls pg2.
Proof. unfold drawn_calls. rewrite filter_app, fmap_app. reflexivity. Qed.

Lemma drawn_calls_failed (draw : font_config -> call)
    (fonts : list font_config) :
  drawn_calls (failed_draws draw fonts) = [].
Proof. induction fonts as [|f fonts IH]; [reflexivity|exact IH]. Qed.

Section FontChain.

Variable E : env.
Variables (point : Z * Z) (display_text : str) (fontsize : Z).

Let draw := attempt point display_text fontsize.
Let draws (font : font_config) : bool := insert_text_ok E (draw font).

Lemma try_fonts_run (fonts : list font_config) (pg : page) :
  (exists failed font rest,
      fonts = failed ++ font :: rest
      /\ Forall (fun f => draws f = false) failed
      /\ draws font = true
      /\ try_fonts E point display_text fontsize fonts pg =
         (Ok true, pg ++ failed_draws draw failed ++ [Event (draw font) true]))
  \/ (Forall (fun f => draws f = false) fonts
      /\ try_fonts E point display_text fontsize fonts pg =
         (Ok false, pg ++ failed_draws draw fonts)).
Proof.
  revert pg. induction fonts as [|font fonts IH]; intros pg.
  - right. split; [constructor|]. cbn. rewrite app_nil_r. reflexivity.
  - cbn [try_fonts]. rewrite bind_run. unfold try_insert_text.
    change (InsertText point display_text font fontsize black) with (draw font).
    change (insert_text_ok E (draw font)) with (draws font).
    destruct (draws font) eqn:Hfont.
    + left. exists [], font, fonts.
      split; [reflexivity|]. split; [constructor|]. split; [exact Hfont|].
      reflexivity.
    + destruct (IH (pg ++ [Event (draw font) false]))
        as [(failed & f & rest & -> & Hfailed & Hf & Hrun)|[Hall Hrun]].
      * left. exists (font :: failed), f, rest.
        split; [reflexivity|]. split; [constructor; assumption|].
        split; [exact Hf|].
        rewrite Hrun, <- app_assoc. reflexivity.
      * right. split; [constructor; assumption|].
        rewrite Hrun, <- app_assoc. reflexivity.
Qed.

Lemma find_first_success (failed rest : list font_config) (font : font_config) :
  Forall (fun f => draws f = false) failed ->
  draws font = true ->
  find draws (failed ++ font :: rest) = Some font.
Proof.
  induction 1 as [|f failed Hf _ IH]; intros Hfont; cbn.
  - rewrite Hfont. reflexivity.
  - rewrite Hf. exact (IH Hfont).
Qed.

Lemma find_all_failed (fonts : list font_config) (last : font_config) :
  Forall (fun f => draws f = false) fonts ->
  find draws (fonts ++ [last]) = if draws last then Some last else None.
Proof.
  induction 1 as [|f fonts Hf _ IH]; cbn.
  - reflexivity.
  - rewrite Hf. exact IH.
Qed.

End FontChain.

(** The outcomes of [insert_arabic_text] on a text that is not blank. *)
Lemma insert_arabic_text_run (E : env) (x y : Z) (text : str) (fontsize : Z)
    (pg : page) :
  nonblank text = true ->
  let draw := attempt (x, y) (reshape_arabic_text E text) fontsize in
  let draws font := insert_text_ok E (draw font) in
  (exists failed font rest,
      font_attempts = failed ++ font :: rest
      /\ Forall (fun f => draws f = false) failed
      /\ draws font = true
      /\ insert_arabic_text E x y text fontsize pg =
         (Ok tt, pg ++ failed_draws draw failed ++ [Event (draw font) true]))
  \/ (Forall (fun f => draws f = false) font_attempts
      /\ insert_arabic_text E x y text fontsize pg =
         (Ok tt, pg ++ failed_draws draw font_attempts
                    ++ [Event (draw helv) (draws helv)])).
Proof.
  intros Htext draw draws. unfold insert_arabic_text. rewrite Htext.
  cbv zeta. rewrite bind_run.
  destruct (try_fonts_run E (x, y) (reshape_arabic_text E text) fontsize
              font_attempts pg)
    as [(failed & f & rest & Hsplit & Hfailed & Hf & Hrun)|[Hall Hrun]];
    rewrite Hrun.
  - left. exists failed, f, rest.
    split; [exact Hsplit|]. split; [exact Hfailed|]. split; [exact Hf|].
    reflexivity.
  - right. split; [exact Hall|].
    rewrite bind_run. unfold try_insert_text. cbn.
    rewrite <- app_assoc. reflexivity.
Qed.

(** C3: [insert_arabic_text] raises nothing.  On a text that is not blank
    it tries the font candidates in their listed order and stops at the
    first one whose draw succeeds; when all of them fail it makes exactly one
    more attempt, with "helv", and returns normally whether that attempt
    succeeds or not.  (A blank text is not drawn at all.) *)
Theorem insert_arabic_text_fallback (E : env) (x y : Z) (text : str)
    (fontsize : Z) (pg : page) :
  let draw := attempt (x, y) (reshape_arabic_text E text) fontsize in
  let draws font := insert_text_ok E (draw font) in
  (nonblank text = false
   /\ insert_arabic_text E x y text fontsize pg = (Ok tt, pg))
  \/ (exists failed font rest,
         font_attempts = failed ++ font :: rest
         /\ Forall (fun f => draws f = false) failed
         /\ draws font = true
         /\ insert_arabic_text E x y text fontsize pg =
            (Ok tt, pg ++ failed_draws draw failed ++ [Event (draw font) true]))
  \/ (Forall (fun f => draws f = false) font_attempts
      /\ insert_arabic_text E x y text fontsize pg =
         (Ok tt, pg ++ failed_draws draw font_attempts
                    ++ [Event (draw helv) (draws helv)])).
Proof.
  intros draw draws. destruct (nonblank text) eqn:Htext.
  - right. exact (insert_arabic_text_run E x y text fontsize pg Htext).
  - left. split; [reflexivity|].
    unfold insert_arabic_text. rewrite Htext. reflexivity.
Qed.

Lemma insert_arabic_text_returns (E : env) (x y : Z) (text : str)
    (fontsize : Z) (pg : page) :
  exists attempts,
    insert_arabic_text E x y text fontsize pg = (Ok tt, pg ++ attempts).
Proof.
  destruct (nonblank text) eqn:Htext.
  - destruct (insert_arabic_text_run E x y text fontsize pg Htext)
      as [(failed & f & rest & _ & _ & _ & Hrun)|[_ Hrun]];
      rewrite Hrun; eauto.
  - exists []. unfold insert_arabic_text. rewrite Htext, app_nil_r. reflexivity.
Qed.


(** ** The accompanied-by field *)

Lemma accompanied_by_coordinate :
  FIELD_COORDINATES !! u "accompanied_by_arabic" = Some (450, 750).
Proof. vm_compute. reflexivity. Qed.

Lemma prefixed_text_nonblank (name : str) :
  nonblank (ARABIC_ACCOMPANIED_BY_PREFIX ++ name) = true.
Proof. apply nonblank_app_l. vm_compute. reflexivity. Qed.

Lemma translate_to_arabic_falls_back (E : env) (text : str) :
  TRANSLATION_SUPPORT E = false \/ translate E text = None ->
  translate_to_arabic E (JStr text) = Ok (JStr text).
Proof.
  intros H. unfold translate_to_arabic.
  destruct (TRANSLATION_SUPPORT E); cbn [negb]; [|reflexivity].
  destruct H as [H|H]; [discriminate|]. rewrite H.
  destruct (negb (truthy (JStr text))); [reflexivity|].
  destruct (negb (PyStr.nonempty (PyStr.strip text))); reflexivity.
Qed.

Lemma translate_to_arabic_str (E : env) (text : str) :
  exists translated, translate_to_arabic E (JStr text) = Ok (JStr translated).
Proof.
  unfold translate_to_arabic.
  destruct (negb (TRANSLATION_SUPPORT E)); [eauto|].
  destruct (negb (truthy (JStr text))); [eauto|].
  destruct (negb (PyStr.nonempty (PyStr.strip text))); [eauto|].
  destruct (translate E text); eauto.
Qed.

Lemma fill_accompanied_by_str (E : env) (data : gmap str json) (name : str)
    (pg : page) :
  get_nested_value data (u "accompany_name") = JStr name ->
  name <> [] ->
  exists translated,
    translate_to_arabic E (JStr name) = Ok (JStr translated)
    /\ fill_accompanied_by E data pg =
       insert_arabic_text E 450 750 (ARABIC_ACCOMPANIED_BY_PREFIX ++ translated)
                          BOTTOM_LABEL_FONT_SIZE pg.
Proof.
  intros Hname Hne. destruct (translate_to_arabic_str E name) as [tr Htr].
  exists tr. split; [exact Htr|].
  unfold fill_accompanied_by. rewrite Hname.
  destruct name as [|c name]; [congruence|]. cbn [truthy PyStr.nonempty].
  rewrite (at_coordinate_found _ _ _ _ accompanied_by_coordinate).
  rewrite bind_run, Htr, lift_run. reflexivity.
Qed.

Lemma failed_draws_calls (draw : font_config -> call) (fonts : list font_config) :
  Forall (fun e => exists font, ev_call e = draw font) (failed_draws draw fonts).
Proof.
  induction fonts as [|f fonts IH]; constructor; [|exact IH].
  exists f. reflexivity.
Qed.

(** C7 (as amended): with translation unavailable and a non-empty string
    as [accompany_name], the text handed to the Arabic writer is exactly the
    prefix literal followed by the original name.  Every draw attempted at
    the [accompanied_by_arabic] coordinate, in the bottom-label font size,
    carries the display form of that text, which is the text itself when
    the shaping library is unavailable; it is written once, by the first
    font among the candidates and then "helv" whose draw succeeds, and not
    at all when none does. *)
Theorem accompanied_by_untranslated (E : env) (data : gmap str json)
    (name : str) (pg : page) :
  TRANSLATION_SUPPORT E = false ->
  get_nested_value data (u "accompany_name") = JStr name ->
  name <> [] ->
  let text := ARABIC_ACCOMPANIED_BY_PREFIX ++ name in
  let draw :=
    attempt (450, 750) (reshape_arabic_text E text) BOTTOM_LABEL_FONT_SIZE in
  fill_accompanied_by E data pg =
    insert_arabic_text E 450 750 text BOTTOM_LABEL_FONT_SIZE pg
  /\ (ARABIC_SUPPORT E = false -> reshape_arabic_text E text = text)
  /\ exists attempts,
       fill_accompanied_by E data pg = (Ok tt, pg ++ attempts)
       /\ Forall (fun e => exists font, ev_call e = draw font) attempts
       /\ drawn_calls attempts =
          match find (fun font => insert_text_ok E (draw font))
                     (font_attempts ++ [helv]) with
          | Some font => [draw font]
          | None => []
          end.
Proof.
  intros Hts Hname Hne text draw.
  destruct (fill_accompanied_by_str E data name pg Hname Hne)
    as (tr & Htr & Hfill).
  rewrite (translate_to_arabic_falls_back E name (or_introl Hts)) in Htr.
  injection Htr as <-. fold text in Hfill.
  split; [exact Hfill|].
  split; [intros Has; unfold reshape_arabic_text; rewrite Has; reflexivity|].
  rewrite Hfill.
  destruct (insert_arabic_text_run E 450 750 text BOTTOM_LABEL_FONT_SIZE pg
              (prefixed_text_nonblank name))
    as [(failed & f & rest & Hsplit & Hfailed & Hf & Hrun)|[Hall Hrun]];
    fold draw in Hrun, Hf || fold draw in Hrun.
  - exists (failed_draws draw failed ++ [Event (draw f) true]).
    split; [exact Hrun|]. split.
    + apply Forall_app. split; [apply failed_draws_calls|].
      constructor; [exists f; reflexivity|constructor].
    + rewrite drawn_calls_app, drawn_calls_failed, Hsplit, <- app_assoc.
      cbn [app]. unfold draw.
      rewrite (find_first_success E _ _ _ failed (rest ++ [helv]) f Hfailed Hf).
      reflexivity.
  - exists (failed_draws draw font_attempts
            ++ [Event (draw helv) (insert_text_ok E (draw helv))]).
    split; [exact Hrun|]. split.
    + apply Forall_app. split; [apply failed_draws_calls|].
      constructor; [exists helv; reflexivity|constructor].
    + rewrite drawn_calls_app, drawn_calls_failed. unfold draw.
      rewrite (find_all_failed E _ _ _ font_attempts helv Hall).
      destruct (insert_text_ok E (attempt _ _ _ helv)); reflexivity.
Qed.

(** C4: when the translation library is unavailable, or its call raises,
    [translate_to_arabic] returns the text it was given, and raises
    nothing; the accompanied-by step of the fill operation, called with a
    string, then returns normally as well. *)
Theorem translation_failure_is_not_fatal (E : env) (text : str) :
  TRANSLATION_SUPPORT E = false \/ translate E text = None ->
  translate_to_arabic E (JStr text) = Ok (JStr text)
  /\ forall (data : gmap str json) (pg : page),
       get_nested_value data (u "accompany_name") = JStr text ->
       exists attempts, fill_accompanied_by E data pg = (Ok tt, pg ++ attempts).
Proof.
  intros H. split; [exact (translate_to_arabic_falls_back E text H)|].
  intros data pg Hname.
  destruct text as [|c text].
  - exists []. unfold fill_accompanied_by. rewrite Hname, app_nil_r. reflexivity.
  - destruct (fill_accompanied_by_str E data (c :: text) pg Hname)
      as (tr & _ & ->); [discriminate|].
    apply insert_arabic_text_returns.
Qed.


(** ** Order of the draws *)

Lemma appends_ret {A} (a : A) : appends (mret a : M A).
Proof. intros pg. exists []. cbn. rewrite app_nil_r. reflexivity. Qed.

Lemma appends_lift {A} (r : result A) : appends (lift r).
Proof. intros pg. exists []. cbn. rewrite app_nil_r. reflexivity. Qed.

Lemma appends_bind {A B} (c : M A) (f : A -> M B) :
  appends c -> (forall a, appends (f a)) -> appends (c ≫= f).
Proof.
  intros Hc Hf pg. rewrite bind_run. destruct (Hc pg) as [evs Hevs].
  destruct (c pg) as [[a|e] pg1]; cbn in Hevs; subst pg1.
  - destruct (Hf a (pg ++ evs)) as [evs' Hevs'].
    exists (evs ++ evs'). rewrite Hevs', app_assoc. reflexivity.
  - exists evs. reflexivity.
Qed.

Lemma appends_page_call (c : call) : appends (page_call c).
Proof. intros pg. eexists. reflexivity. Qed.

Lemma appends_try_insert_text (E : env) (c : call) :
  appends (try_insert_text E c).
Proof. intros pg. eexists. reflexivity. Qed.

Lemma appends_insert_text (x y : Z) (text : str) (fontsize : Z) :
  appends (insert_text x y text fontsize).
Proof.
  unfold insert_text. destruct (nonblank text);
    [apply appends_page_call | apply appends_ret].
Qed.

Lemma appends_at_coordinate (key : str) (body : Z -> Z -> M unit) :
  (forall x y, appends (body x y)) -> appends (at_coordinate key body).
Proof.
  intros H. unfold at_coordinate.
  destruct (FIELD_COORDINATES !! key) as [[x y]|]; [apply H | apply appends_ret].
Qed.

Lemma appends_for_each {A} (l : list A) (body : A -> M unit) :
  (forall a, appends (body a)) -> appends (for_each l body).
Proof.
  intros H. induction l as [|a l IH]; cbn [for_each].
  - apply appends_ret.
  - apply appends_bind; [apply H | intros _; exact IH].
Qed.

Lemma appends_insert_arabic_text (E : env) (x y : Z) (text : str)
    (fontsize : Z) :
  appends (insert_arabic_text E x y text fontsize).
Proof.
  intros pg. destruct (insert_arabic_text_returns E x y text fontsize pg)
    as [attempts ->]. eauto.
Qed.

Lemma appends_fill_checkboxes (data : gmap str json) :
  appends (fill_checkboxes data).
Proof.
  unfold fill_checkboxes. apply appends_bind; [apply appends_lift|].
  intros visa_type. apply appends_bind.
  - destruct (_ !! visa_type); [|apply appends_ret].
    apply appends_at_coordinate. intros x y. apply appends_page_call.
  - intros _. cbv zeta. destruct (_ !! _); [|apply appends_ret].
    apply appends_at_coordinate. intros x y. apply appends_page_call.
Qed.

Lemma appends_fill_text_fields (E : env) (data : gmap str json) :
  appends (fill_text_fields E data).
Proof.
  unfold fill_text_fields.
  apply appends_bind; [|intros _; apply appends_bind;
                        [|intros _; apply appends_bind;
                          [|intros _; apply appends_bind; [|intros _]]]].
  - apply appends_for_each. intros [json_path coord_key].
    unfold fill_text_field. destruct (truthy _); [|apply appends_ret].
    apply appends_at_coordinate. intros x y. apply appends_insert_text.
  - unfold fill_departure_from_dubai. destruct (truthy _); [|apply appends_ret].
    apply appends_bind; [|intros _];
      apply appends_at_coordinate; intros x y; apply appends_insert_text.
  - unfold fill_arrival_to_dubai. destruct (truthy _); [|apply appends_ret].
    apply appends_bind; [|intros _];
      apply appends_at_coordinate; intros x y; apply appends_insert_text.
  - unfold fill_accompanied_by. destruct (truthy _); [|apply appends_ret].
    apply appends_at_coordinate. intros x y.
    apply appends_bind; [apply appends_lift|]. intros translated_name.
    apply appends_bind; [apply appends_lift|]. intros arabic_text.
    apply appends_insert_arabic_text.
  - unfold fill_visa_type_label. destruct (truthy _); [|apply appends_ret].
    apply appends_at_coordinate. intros x y.
    apply appends_bind; [apply appends_lift|]. intros visa_type_lower.
    destruct (_ !! _); [apply appends_insert_text | apply appends_ret].
Qed.

Lemma fill_page_redacts_first (E : env) (data : gmap str json) (template : page) :
  exists rest, snd (fill_page E data template) = template ++ redaction :: rest.
Proof.
  unfold fill_page. rewrite bind_run.
  change (redact_existing_dates template) with (Ok tt, template ++ [redaction]).
  destruct (appends_bind (fill_checkboxes data)
              (fun _ => fill_text_fields E data)
              (appends_fill_checkboxes data)
              (fun _ => appends_fill_text_fields E data)
              (template ++ [redaction])) as [rest Hrest].
  exists rest. rewrite Hrest, <- app_assoc. reflexivity.
Qed.

(** C8: in both entry points of the fill operation the first call made on
    the template page is the white rectangle over the pre-printed dates:
    every checkbox mark and every text, written or attempted, comes after
    it, whatever the record and the environment, and the bytes returned
    are that page. *)
Theorem redaction_precedes_every_draw (E : env) (data : gmap str json)
    (template : page) :
  exists rest,
    snd (generate_filled_pdf_bytes E data template) = template ++ redaction :: rest
    /\ snd (fill_visa_form E data template) = template ++ redaction :: rest
    /\ (forall pdf_bytes full_name,
          fst (generate_filled_pdf_bytes E data template) = Ok (pdf_bytes, full_name) ->
          pdf_bytes = template ++ redaction :: rest)
    /\ ev_call redaction = DrawRect (328, 382, 328 + 215, 382 + 12) white white.
Proof.
  destruct (fill_page_redacts_first E data template) as [rest Hrest].
  exists rest. unfold fill_visa_form, generate_filled_pdf_bytes.
  rewrite bind_run.
  destruct (fill_page E data template) as [[[]|e] pg1]; cbn [snd] in Hrest;
    subst pg1.
  - rewrite bind_run. unfold tobytes. rewrite bind_run, lift_run.
    destruct (extract_full_name data) as [full_name|e]; cbn.
    + repeat split. intros ? ? [= <- _]. reflexivity.
    + repeat split. discriminate.
  - cbn. repeat split. discriminate.
Qed.

(** ** The visa type label *)

Lemma visa_type_label_no_coordinate :
  FIELD_COORDINATES !! u "visa_type_label" = None.
Proof. vm_compute. reflexivity. Qed.

Lemma fill_visa_type_label_skips (data : gmap str json) (pg : page) :
  fill_visa_type_label data pg = (Ok tt, pg).
Proof.
  unfold fill_visa_type_label, at_coordinate.
  rewrite visa_type_label_no_coordinate.
  destruct (truthy _); reflexivity.
Qed.

(** ** The full name *)

Lemma upper_cp_N (c : N) : PyStr.upper_cp c = 78%N -> c = 78%N \/ c = 110%N.
Proof.
  unfold PyStr.upper_cp.
  destruct ((97 <=? c) && (c <=? 122))%N eqn:H; [|auto].
  apply andb_true_iff in H as [H1 H2].
  apply N.leb_le in H1, H2. lia.
Qed.

Lemma upper_cp_slash (c : N) : PyStr.upper_cp c = 47%N -> c = 47%N.
Proof.
  unfold PyStr.upper_cp.
  destruct ((97 <=? c) && (c <=? 122))%N eqn:H; [|auto].
  apply andb_true_iff in H as [H1 H2].
  apply N.leb_le in H1, H2. lia.
Qed.

Lemma upper_cp_A (c : N) : PyStr.upper_cp c = 65%N -> c = 65%N \/ c = 97%N.
Proof.
  unfold PyStr.upper_cp.
  destruct ((97 <=? c) && (c <=? 122))%N eqn:H; [|auto].
  apply andb_true_iff in H as [H1 H2].
  apply N.leb_le in H1, H2. lia.
Qed.

Lemma upper_is_na (s : str) : PyStr.upper s = u "N/A" <-> is_na s = true.
Proof.
  unfold is_na. rewrite bool_decide_eq_true, !elem_of_cons, elem_of_nil.
  split.
  - change (u "N/A") with [78; 47; 65]%N. unfold PyStr.upper.
    destruct s as [|a [|b [|c [|d s]]]]; try discriminate.
    intros [= Ha Hb Hc].
    apply upper_cp_N in Ha. apply upper_cp_slash in Hb. apply upper_cp_A in Hc.
    subst b. destruct Ha as [->| ->], Hc as [->| ->]; auto.
  - intros [->|[->|[->|[->|[]]]]]; reflexivity.
Qed.

Lemma kept_part_falsy (v : json) : truthy v = false -> kept_part v = None.
Proof.
  destruct v; try reflexivity. cbn. intros ->. reflexivity.
Qed.

Lemma omap_kept_cons (v : json) (parts : list json) :
  omap kept_part (v :: parts) =
  match kept_part v with
  | Some s => s :: omap kept_part parts
  | None => omap kept_part parts
  end.
Proof. reflexivity. Qed.

Lemma name_parts_loop_ok (parts : list json) (name_parts : list str) :
  Forall part_ok parts ->
  name_parts_loop parts name_parts = Ok (name_parts ++ omap kept_part parts).
Proof.
  intros H. revert name_parts.
  induction H as [|part parts Hpart _ IH]; intros name_parts; cbn [name_parts_loop].
  - cbn. rewrite app_nil_r. reflexivity.
  - destruct (truthy part) eqn:Htruthy.
    + destruct Hpart as [Hfalsy|[s ->]]; [congruence|].
      cbn in Htruthy. rewrite omap_kept_cons. cbn [kept_part].
      rewrite Htruthy, andb_true_l.
      destruct (is_na s) eqn:Hna.
      * apply upper_is_na in Hna. rewrite bool_decide_eq_false_2 by tauto.
        apply IH.
      * rewrite bool_decide_eq_true_2.
        -- rewrite IH, <- app_assoc. reflexivity.
        -- intros Hup. apply upper_is_na in Hup. congruence.
    + rewrite omap_kept_cons, (kept_part_falsy _ Htruthy). apply IH.
Qed.

(** The full name of a well-typed record: when [personal_info] is absent
    or a dictionary and each of its first, middle and last name is absent,
    falsy or a string, [extract_full_name] drops the parts that are
    missing, empty or equal to "N/A" whatever the case of the letters, and
    returns the others, in order, joined by single spaces. *)
Theorem extract_full_name_keeps_real_parts (data personal : gmap str json) :
  personal_info_of data = Some personal ->
  let first_name := default (JStr []) (personal !! u "first_name") in
  let middle_name := default (JStr []) (personal !! u "middle_name") in
  let last_name := default (JStr []) (personal !! u "last_name") in
  part_ok first_name -> part_ok middle_name -> part_ok last_name ->
  extract_full_name data =
    Ok (PyStr.join (u " ") (omap kept_part [first_name; middle_name; last_name]))
  /\ (forall s, is_na s = true <-> PyStr.upper s = u "N/A").
Proof.
  intros Hpersonal first_name middle_name last_name Hf Hm Hl.
  split; [|intros s; symmetry; apply upper_is_na].
  assert (Hdict : default (JDict ∅) (data !! u "personal_info") = JDict personal).
  { unfold personal_info_of in Hpersonal.
    destruct (data !! u "personal_info") as [[]|]; try discriminate;
      injection Hpersonal as <-; reflexivity. }
  unfold extract_full_name. rewrite Hdict. cbn [py_get mbind result_bind].
  fold first_name middle_name last_name.
  rewrite name_parts_loop_ok
    by (apply Forall_cons_2; [assumption|];
        apply Forall_cons_2; [assumption|];
        apply Forall_cons_2; [assumption|apply Forall_nil_2]).
  reflexivity.
Qed.

(** * Further properties *)

(** ** get_nested_value *)

Lemma split_nonempty (sep : N) (s : str) : PyStr.split sep s <> [].
Proof.
  destruct s as [|c s]; cbn; [discriminate|].
  destruct (c =? sep)%N; [discriminate|].
  destruct (PyStr.split sep s); discriminate.
Qed.

Lemma split_app (sep : N) (a b : str) :
  PyStr.split sep (a ++ sep :: b) = PyStr.split sep a ++ PyStr.split sep b.
Proof.
  induction a as [|c a IH]; cbn [app PyStr.split].
  - rewrite N.eqb_refl. reflexivity.
  - destruct (c =? sep)%N.
    + rewrite IH. reflexivity.
    + rewrite IH. pose proof (split_nonempty sep a) as Hne.
      destruct (PyStr.split sep a) as [|w ws]; [congruence|reflexivity].
Qed.

Lemma split_no_sep (sep : N) (s : str) :
  sep ∉ s -> PyStr.split sep s = [s].
Proof.
  induction s as [|c s IH]; intros Hsep; cbn [PyStr.split]; [reflexivity|].
  apply not_elem_of_cons in Hsep as [Hc Hs].
  destruct (N.eqb_spec c sep) as [->|_]; [congruence|].
  rewrite (IH Hs). reflexivity.
Qed.

Lemma get_nested_loop_null (keys : list str) :
  keys <> [] -> get_nested_loop JNull keys = JNull.
Proof. destruct keys; [congruence|reflexivity]. Qed.

Lemma get_nested_loop_not_dict (v : json) (keys : list str) :
  keys <> [] -> (forall d, v <> JDict d) -> get_nested_loop v keys = JNull.
Proof.
  intros Hk Hv. destruct keys as [|key keys]; [congruence|].
  destruct v; try reflexivity. destruct (Hv d). reflexivity.
Qed.

Lemma get_nested_loop_app (v : json) (keys1 keys2 : list str) :
  keys2 <> [] ->
  get_nested_loop v (keys1 ++ keys2) =
  get_nested_loop (get_nested_loop v keys1) keys2.
Proof.
  intros Hk. revert v. induction keys1 as [|key keys1 IH]; intros v; cbn.
  - reflexivity.
  - destruct v; try (symmetry; apply get_nested_loop_null, Hk).
    destruct (d !! key); [apply IH|].
    symmetry. apply get_nested_loop_null, Hk.
Qed.

Lemma traversal_dichotomy (v : json) (keys : list str) :
  traversal_fails v keys \/ exists w, reaches v keys w.
Proof.
  revert v. induction keys as [|key keys IH]; intros v.
  - right. exists v. constructor.
  - destruct v as [| | | | | |d];
      try (left; apply fails_not_dict; discriminate).
    destruct (d !! key) as [w|] eqn:Hkey.
    + destruct (IH w) as [Hfail|[w' Hw']].
      * left. eapply fails_below; eassumption.
      * right. exists w'. eapply reaches_below; eassumption.
    + left. apply fails_absent, Hkey.
Qed.

Lemma reaches_value (v : json) (keys : list str) (w : json) :
  reaches v keys w -> get_nested_loop v keys = w.
Proof.
  induction 1 as [v|d key v keys w Hkey _ IH]; cbn; [reflexivity|].
  rewrite Hkey. exact IH.
Qed.

(** X1: [get_nested_value] returns the value the path leads to, and it
    returns None in exactly two cases: traversal fails at some segment, or
    it succeeds and the stored value is null.  A caller cannot tell the two
    apart. *)
Theorem get_nested_value_none_iff (data : gmap str json) (path : str) :
  (forall v, reaches (JDict data) (PyStr.split 46 path) v ->
             get_nested_value data path = v)
  /\ (get_nested_value data path = JNull <->
      traversal_fails (JDict data) (PyStr.split 46 path)
      \/ reaches (JDict data) (PyStr.split 46 path) JNull).
Proof.
  unfold get_nested_value. split; [intros v; apply reaches_value|].
  split.
  - intros Hnull.
    destruct (traversal_dichotomy (JDict data) (PyStr.split 46 path))
      as [Hfail|[w Hw]]; [left; exact Hfail|].
    right. rewrite <- Hnull, (reaches_value _ _ _ Hw). exact Hw.
  - intros [Hfail|Hreach].
    + apply traversal_fails_null, Hfail.
    + apply reaches_value, Hreach.
Qed.

(** X2: a dotted path is looked up in two steps: the part before a dot
    selects a value, and the part after it is looked up inside that value
    when it is a dictionary; any other value gives None. *)
Theorem get_nested_value_dotted (data : gmap str json) (prefix rest : str) :
  get_nested_value data (prefix ++ u "." ++ rest) =
  match get_nested_value data prefix with
  | JDict d => get_nested_value d rest
  | _ => JNull
  end.
Proof.
  unfold get_nested_value. change (u "." ++ rest) with (46%N :: rest).
  rewrite split_app, get_nested_loop_app by apply split_nonempty.
  destruct (get_nested_loop (JDict data) (PyStr.split 46 prefix));
    try (apply get_nested_loop_not_dict;
         [apply split_nonempty | discriminate]).
  reflexivity.
Qed.

(** X3: a path without a dot (the empty path included) is a plain lookup
    of that key in the record, None when the key is absent. *)
Theorem get_nested_value_flat (data : gmap str json) (key : str) :
  46%N ∉ key ->
  get_nested_value data key = default JNull (data !! key).
Proof.
  intros Hdot. unfold get_nested_value. rewrite (split_no_sep _ _ Hdot).
  cbn. destruct (data !! key); reflexivity.
Qed.

(** ** insert_text and the coordinate tables *)

(** X4: [insert_text] never raises and writes the text exactly as given,
    leading and trailing whitespace included; it draws nothing only when
    every character of the text is whitespace (or there is none). *)
Theorem insert_text_writes_untrimmed (x y : Z) (text : str) (fontsize : Z)
    (pg : page) :
  insert_text x y text fontsize pg =
  (Ok tt, if forallb PyStr.isspace text then pg
          else pg ++ [text_at (x, y) text fontsize]).
Proof.
  pose proof (nonblank_spec text) as Hspec. unfold whitespace_only in Hspec.
  destruct (forallb PyStr.isspace text); cbn [negb] in Hspec.
  - apply insert_text_blank, Hspec.
  - apply insert_text_nonblank, Hspec.
Qed.

Lemma on_pageb_on_page (p : Z * Z) : on_pageb p = true -> on_page p.
Proof. unfold on_pageb, on_page. intros H. lia. Qed.

Lemma map_forallb {V} (m : gmap str V) (f : str * V -> bool) :
  forallb f (map_to_list m) = true ->
  forall k v, m !! k = Some v -> f (k, v) = true.
Proof.
  intros Hall k v Hk. rewrite forallb_forall in Hall. apply Hall.
  apply list_elem_of_In, elem_of_map_to_list, Hk.
Qed.

Lemma field_coordinates_on_page (key : str) (p : Z * Z) :
  FIELD_COORDINATES !! key = Some p -> on_page p.
Proof.
  intros Hkey. apply on_pageb_on_page.
  assert (Hall : forallb (fun kp => on_pageb kp.2) (map_to_list FIELD_COORDINATES)
                 = true) by (vm_compute; reflexivity).
  exact (map_forallb FIELD_COORDINATES (fun kp => on_pageb kp.2) Hall key p Hkey).
Qed.

Lemma text_field_targets (json_path coord_key : str) :
  In (json_path, coord_key) TEXT_FIELD_MAPPINGS ->
  is_Some (FIELD_COORDINATES !! coord_key).
Proof.
  intros Hin.
  assert (Hall : forallb (fun e => bool_decide (is_Some (FIELD_COORDINATES !! e.2)))
                         TEXT_FIELD_MAPPINGS = true) by (vm_compute; reflexivity).
  pose proof (proj1 (forallb_forall _ _) Hall _ Hin) as H.
  exact (bool_decide_eq_true_1 _ H).
Qed.

Lemma checkbox_targets (category : str) (variants : gmap str str)
    (variant checkbox_key : str) :
  CHECKBOX_MAPPINGS !! category = Some variants ->
  variants !! variant = Some checkbox_key ->
  is_Some (FIELD_COORDINATES !! checkbox_key).
Proof.
  intros Hcat Hvar.
  assert (Hall :
    forallb (fun cv : str * gmap str str =>
               forallb (fun vk : str * str =>
                          bool_decide (is_Some (FIELD_COORDINATES !! vk.2)))
                       (map_to_list cv.2))
            (map_to_list CHECKBOX_MAPPINGS) = true) by (vm_compute; reflexivity).
  pose proof (map_forallb CHECKBOX_MAPPINGS _ Hall category variants Hcat) as H1.
  cbv beta in H1.
  pose proof (map_forallb variants _ H1 variant checkbox_key Hvar) as H2.
  exact (bool_decide_eq_true_1 _ H2).
Qed.

(** X5: no pair of the text-field mapping is skipped for want of a
    coordinate: whenever the value at the path is truthy and its text is
    not blank, the text is written once, in the default font and size, at
    the point the coordinate table gives for the field, which lies on the
    page. *)
Theorem mapped_value_is_written (data : gmap str json)
    (json_path coord_key : str) (pg : page) :
  In (json_path, coord_key) TEXT_FIELD_MAPPINGS ->
  truthy (get_nested_value data json_path) = true ->
  nonblank (py_str (get_nested_value data json_path)) = true ->
  exists p,
    FIELD_COORDINATES !! coord_key = Some p
    /\ on_page p
    /\ fill_text_field data (json_path, coord_key) pg =
       (Ok tt, pg ++ [text_at p (py_str (get_nested_value data json_path))
                              FONT_SIZE]).
Proof.
  intros Hin Htruthy Htext.
  destruct (text_field_targets _ _ Hin) as [[x y] Hp].
  exists (x, y). split; [exact Hp|].
  split; [exact (field_coordinates_on_page _ _ Hp)|].
  unfold fill_text_field. rewrite Htruthy.
  rewrite (at_coordinate_found _ _ _ _ Hp).
  apply insert_text_nonblank, Htext.
Qed.

(** X6: the tables of [field_config] are consistent with each other: every
    coordinate lies on the 612 x 792 page; every checkbox field named by a
    category of the checkbox mapping, and every target of the text-field
    mapping, has a coordinate; and no record path or target field occurs
    twice in the text-field mapping. *)
Theorem field_config_tables_consistent :
  (forall key p, FIELD_COORDINATES !! key = Some p -> on_page p)
  /\ (forall category variants variant checkbox_key,
        CHECKBOX_MAPPINGS !! category = Some variants ->
        variants !! variant = Some checkbox_key ->
        is_Some (FIELD_COORDINATES !! checkbox_key))
  /\ (forall json_path coord_key,
        In (json_path, coord_key) TEXT_FIELD_MAPPINGS ->
        is_Some (FIELD_COORDINATES !! coord_key))
  /\ NoDup (TEXT_FIELD_MAPPINGS.*1)
  /\ NoDup (TEXT_FIELD_MAPPINGS.*2).
Proof.
  split; [exact field_coordinates_on_page|].
  split; [exact checkbox_targets|].
  split; [exact text_field_targets|].
  split; apply (bool_decide_eq_true_1 _); vm_compute; reflexivity.
Qed.

(** ** fill_checkboxes *)

Lemma fill_checkboxes_run (data : gmap str json) (t : str) (pg : page) :
  stated_visa_type data = Some t ->
  fill_checkboxes data pg =
    (Ok tt,
     pg ++ match visa_type_box (PyStr.lower t) with
           | Some box => [checkbox_mark box]
           | None => []
           end
        ++ [checkbox_mark
              (if bool_decide (PyStr.lower t ∈ [u "multiple_entry"; u "multiple"])
               then six_months_box else three_months_box)]).
Proof.
  intros Hty. destruct (type_checkbox_point_box (PyStr.lower t)) as [Hbox _].
  unfold fill_checkboxes.
  rewrite bind_run, (stated_visa_type_lower _ _ Hty), lift_run.
  rewrite bind_run, type_mark_run, Hbox.
  cbv zeta. rewrite duration_mark_run, <- app_assoc. reflexivity.
Qed.

Lemma fill_checkboxes_ill_typed (data : gmap str json) (pg : page) :
  stated_visa_type data = None ->
  fill_checkboxes data pg = (Raise AttributeError, pg).
Proof.
  intros Hty.
  assert (Hget : py_get (default (JDict ∅) (data !! u "visa_info")) (u "type")
                   (JStr []) ≫= py_lower = Raise AttributeError).
  { unfold stated_visa_type in Hty.
    destruct (data !! u "visa_info") as [v|]; [|discriminate Hty].
    destruct v; try reflexivity.
    change (py_get (default (JDict ∅) (Some (JDict d))) (u "type") (JStr []))
      with (Ok (default (JStr []) (d !! u "type")) : result json).
    destruct (d !! u "type") as [w|]; [|discriminate Hty].
    destruct w; try reflexivity. discriminate Hty. }
  unfold fill_checkboxes. rewrite bind_run, Hget, lift_run. reflexivity.
Qed.

(** X7: [fill_checkboxes] raises exactly when [visa_info] is present and
    not a dictionary, or its [type] is present and not a string; the
    exception is then [AttributeError] and the page is left untouched.  In
    every other case it returns normally. *)
Theorem fill_checkboxes_raises_iff (data : gmap str json) (pg : page) :
  (stated_visa_type data = None <->
   fill_checkboxes data pg = (Raise AttributeError, pg))
  /\ (is_Some (stated_visa_type data) <->
      fst (fill_checkboxes data pg) = Ok tt).
Proof.
  destruct (stated_visa_type data) as [t|] eqn:Hty.
  - rewrite (fill_checkboxes_run _ _ _ Hty). split; split.
    + discriminate.
    + intros [= ].
    + reflexivity.
    + eauto.
  - rewrite (fill_checkboxes_ill_typed _ _ Hty). split; split.
    + reflexivity.
    + reflexivity.
    + intros [? [= ]].
    + discriminate.
Qed.

Lemma checkbox_mark_inj (p q : Z * Z) : checkbox_mark p = checkbox_mark q -> p = q.
Proof. intros [= ]. assumption. Qed.

Ltac visa_key_clash :=
  repeat match goal with
         | H : _ ∈ _ :: _ |- _ => apply elem_of_cons in H as [H|H]
         | H : _ ∈ [] |- _ => apply elem_of_nil in H; destruct H
         | H : PyStr.lower _ = _, H' : PyStr.lower _ = _ |- _ =>
             rewrite H in H'; discriminate
         end.

Ltac box_membership :=
  unfold three_months_box, six_months_box;
  repeat (rewrite elem_of_cons || rewrite elem_of_nil);
  split; intro;
  repeat match goal with
         | H : _ \/ _ |- _ => destruct H as [H|H]
         | H : False |- _ => destruct H
         | H : checkbox_mark _ = checkbox_mark _ |- _ =>
             apply checkbox_mark_inj in H; discriminate
         end; auto.

(** X8: whatever the record holds, [fill_checkboxes] marks at most two
    boxes and never one outside the three visa-type boxes and the
    three-month and six-month boxes: the boxes of sex, marital status,
    purpose of trip, fifteen days and one month stay empty.  The six-month
    box is marked exactly when the multiple-entry box is. *)
Theorem fill_checkboxes_only_visa_boxes (data : gmap str json) (pg : page) :
  exists marks,
    snd (fill_checkboxes data pg) = pg ++ marks
    /\ Forall (fun e => exists box, box ∈ visa_boxes /\ e = checkbox_mark box) marks
    /\ (checkbox_mark (68, 620) ∈ marks <-> checkbox_mark six_months_box ∈ marks)
    /\ (length marks <= 2)%nat.
Proof.
  destruct (stated_visa_type data) as [t|] eqn:Hty.
  - rewrite (fill_checkboxes_run _ _ _ Hty). eexists. split; [reflexivity|].
    unfold visa_type_box.
    repeat case_bool_decide; visa_key_clash; cbn [app length].
    all: split; [repeat constructor; eexists; (split; [|reflexivity]);
                 unfold visa_boxes; set_solver|].
    all: split; [box_membership | lia].
  - rewrite (fill_checkboxes_ill_typed _ _ Hty). exists [].
    rewrite app_nil_r. split; [reflexivity|]. split; [constructor|].
    split; [|cbn; lia]. split; intros H; apply elem_of_nil in H; destruct H.
Qed.

(** ** The accompanied-by field, further *)


(** X9: with the translation library loaded, a name that is not blank and
    a call that returns, the accompanied-by step hands the Arabic writer
    the prefix literal followed by the translation; the original name is
    not part of the text. *)
Theorem accompanied_by_translated (E : env) (data : gmap str json)
    (name translated : str) (pg : page) :
  TRANSLATION_SUPPORT E = true ->
  get_nested_value data (u "accompany_name") = JStr name ->
  nonblank name = true ->
  translate E name = Some translated ->
  translate_to_arabic E (JStr name) = Ok (JStr translated)
  /\ fill_accompanied_by E data pg =
     insert_arabic_text E 450 750 (ARABIC_ACCOMPANIED_BY_PREFIX ++ translated)
                        BOTTOM_LABEL_FONT_SIZE pg.
Proof.
  intros Hts Hname Htext Htr.
  assert (Hne : name <> []) by (intros ->; discriminate Htext).
  assert (Hcall : translate_to_arabic E (JStr name) = Ok (JStr translated)).
  { unfold translate_to_arabic. rewrite Hts. cbn [negb truthy].
    unfold nonblank in Htext. apply andb_true_iff in Htext as [-> ->].
    cbn [negb]. rewrite Htr. reflexivity. }
  split; [exact Hcall|].
  destruct (fill_accompanied_by_str E data name pg Hname Hne)
    as (tr & Htr' & ->).
  rewrite Hcall in Htr'. injection Htr' as <-. reflexivity.
Qed.


Lemma fill_accompanied_by_ill_typed (E : env) (data : gmap str json)
    (pg : page) :
  accompany_ok data = false ->
  fill_accompanied_by E data pg =
  (Raise (if TRANSLATION_SUPPORT E then AttributeError else TypeError), pg).
Proof.
  unfold accompany_ok, fill_accompanied_by. intros Hok.
  destruct (get_nested_value data (u "accompany_name")) as [| | | |s| |] eqn:Hv;
    try discriminate Hok;
    apply negb_false_iff in Hok; rewrite Hok;
    rewrite (at_coordinate_found _ _ _ _ accompanied_by_coordinate);
    rewrite bind_run; unfold translate_to_arabic; rewrite Hok;
    destruct (TRANSLATION_SUPPORT E); reflexivity.
Qed.

(** X11: an [accompany_name] that is truthy but not a string (a number,
    true, a non-empty list or dictionary) makes the accompanied-by step
    raise before anything is drawn: [AttributeError] from [text.strip()]
    when the translation library is loaded, [TypeError] from the
    concatenation with the prefix when it is not. *)
Theorem accompanied_by_ill_typed_raises (E : env) (data : gmap str json)
    (pg : page) :
  truthy (get_nested_value data (u "accompany_name")) = true ->
  (forall s, get_nested_value data (u "accompany_name") <> JStr s) ->
  fill_accompanied_by E data pg =
  (Raise (if TRANSLATION_SUPPORT E then AttributeError else TypeError), pg).
Proof.
  intros Htruthy Hstr. apply fill_accompanied_by_ill_typed.
  unfold accompany_ok.
  destruct (get_nested_value data (u "accompany_name")) as [| | | |s| |];
    try (rewrite Htruthy; reflexivity).
  destruct (Hstr s). reflexivity.
Qed.

(** ** Which runs return, which raise *)

Lemma returns_ret {A} (a : A) : returns (mret a : M A).
Proof. intros pg. exists a, []. cbn. rewrite app_nil_r. reflexivity. Qed.

Lemma returns_bind {A B} (c : M A) (f : A -> M B) :
  returns c -> (forall a, returns (f a)) -> returns (c ≫= f).
Proof.
  intros Hc Hf pg. rewrite bind_run.
  destruct (Hc pg) as (a & evs & ->).
  destruct (Hf a (pg ++ evs)) as (b & evs' & ->).
  exists b, (evs ++ evs'). rewrite app_assoc. reflexivity.
Qed.

Lemma returns_page_call (c : call) : returns (page_call c).
Proof. intros pg. eexists _, _. reflexivity. Qed.

Lemma returns_insert_text (x y : Z) (text : str) (fontsize : Z) :
  returns (insert_text x y text fontsize).
Proof.
  unfold insert_text. destruct (nonblank text);
    [apply returns_page_call | apply returns_ret].
Qed.

Lemma returns_at_coordinate (key : str) (body : Z -> Z -> M unit) :
  (forall x y, returns (body x y)) -> returns (at_coordinate key body).
Proof.
  intros H. unfold at_coordinate.
  destruct (FIELD_COORDINATES !! key) as [[x y]|]; [apply H | apply returns_ret].
Qed.

Lemma returns_for_each {A} (l : list A) (body : A -> M unit) :
  (forall a, returns (body a)) -> returns (for_each l body).
Proof.
  intros H. induction l as [|a l IH]; cbn [for_each].
  - apply returns_ret.
  - apply returns_bind; [apply H | intros _; exact IH].
Qed.

Lemma returns_fill_text_field (data : gmap str json) (entry : str * str) :
  returns (fill_text_field data entry).
Proof.
  destruct entry as [json_path coord_key]. unfold fill_text_field.
  destruct (truthy _); [|apply returns_ret].
  apply returns_at_coordinate. intros x y. apply returns_insert_text.
Qed.

Lemma returns_fields_before_accompanied (data : gmap str json) :
  returns (fields_before_accompanied data).
Proof.
  unfold fields_before_accompanied.
  apply returns_bind; [apply returns_for_each, returns_fill_text_field|].
  intros _. apply returns_bind; [|intros _].
  - unfold fill_departure_from_dubai. destruct (truthy _); [|apply returns_ret].
    apply returns_bind; [|intros _];
      apply returns_at_coordinate; intros x y; apply returns_insert_text.
  - unfold fill_arrival_to_dubai. destruct (truthy _); [|apply returns_ret].
    apply returns_bind; [|intros _];
      apply returns_at_coordinate; intros x y; apply returns_insert_text.
Qed.

Lemma returns_fill_accompanied_by (E : env) (data : gmap str json) :
  accompany_ok data = true -> returns (fill_accompanied_by E data).
Proof.
  unfold accompany_ok. intros Hok pg.
  destruct (get_nested_value data (u "accompany_name")) as [| | | |s| |] eqn:Hv.
  1-4,6-7: apply negb_true_iff in Hok; unfold fill_accompanied_by;
    rewrite Hv, Hok; exists tt, []; rewrite app_nil_r; reflexivity.
  destruct s as [|c s].
  - unfold fill_accompanied_by. rewrite Hv. exists tt, [].
    rewrite app_nil_r. reflexivity.
  - destruct (fill_accompanied_by_str E data (c :: s) pg Hv)
      as (tr & _ & ->); [discriminate|].
    destruct (insert_arabic_text_returns E 450 750
                (ARABIC_ACCOMPANIED_BY_PREFIX ++ tr) BOTTOM_LABEL_FONT_SIZE pg)
      as [attempts ->]. eauto.
Qed.

Lemma fill_text_fields_split (E : env) (data : gmap str json) (pg : page) :
  fill_text_fields E data pg =
  (fields_before_accompanied data;;
   fill_accompanied_by E data;;
   fill_visa_type_label data) pg.
Proof.
  unfold fill_text_fields, fields_before_accompanied.
  rewrite !bind_run.
  destruct (for_each TEXT_FIELD_MAPPINGS (fill_text_field data) pg)
    as [[[]|e] pg1]; [|reflexivity].
  rewrite !bind_run.
  destruct (fill_departure_from_dubai data pg1) as [[[]|e] pg2]; [|reflexivity].
  rewrite !bind_run.
  destruct (fill_arrival_to_dubai data pg2) as [[[]|e] pg3]; reflexivity.
Qed.

Lemma fill_text_fields_ok (E : env) (data : gmap str json) :
  accompany_ok data = true -> returns (fill_text_fields E data).
Proof.
  intros Hok pg. rewrite fill_text_fields_split. revert pg.
  apply returns_bind; [apply returns_fields_before_accompanied|].
  intros _. apply returns_bind; [apply returns_fill_accompanied_by, Hok|].
  intros _ pg. rewrite fill_visa_type_label_skips.
  exists tt, []. rewrite app_nil_r. reflexivity.
Qed.

Lemma fill_text_fields_ill_typed (E : env) (data : gmap str json) (pg : page) :
  accompany_ok data = false ->
  fill_text_fields E data pg =
  (Raise (if TRANSLATION_SUPPORT E then AttributeError else TypeError),
   snd (fields_before_accompanied data pg)).
Proof.
  intros Hok. rewrite fill_text_fields_split, bind_run.
  destruct (returns_fields_before_accompanied data pg) as ([] & evs & ->).
  rewrite bind_run, (fill_accompanied_by_ill_typed _ _ _ Hok). reflexivity.
Qed.

Lemma fill_text_fields_fst (E : env) (data : gmap str json) (pg : page) :
  fst (fill_text_fields E data pg) = Ok tt <-> accompany_ok data = true.
Proof.
  destruct (accompany_ok data) eqn:Hok.
  - destruct (fill_text_fields_ok E data Hok pg) as ([] & evs & ->).
    split; reflexivity.
  - rewrite (fill_text_fields_ill_typed _ _ _ Hok). split; discriminate.
Qed.

(** X12: [fill_text_fields] returns normally exactly when [accompany_name]
    is absent, falsy or a string; no other value of the record can make it
    raise.  When it raises, the mapped fields and the two dates have
    already been drawn, and the exception is the one of the accompanied-by
    step. *)
Theorem fill_text_fields_raises_iff (E : env) (data : gmap str json)
    (pg : page) :
  (fst (fill_text_fields E data pg) = Ok tt <-> accompany_ok data = true)
  /\ (accompany_ok data = false ->
      fill_text_fields E data pg =
      (Raise (if TRANSLATION_SUPPORT E then AttributeError else TypeError),
       snd (fields_before_accompanied data pg))).
Proof.
  split; [apply fill_text_fields_fst | apply fill_text_fields_ill_typed].
Qed.

(** ** Independence from the template's content *)

Lemma framed_ret {A} (a : A) : framed (mret a : M A).
Proof. intros pg. cbn. rewrite app_nil_r. reflexivity. Qed.

Lemma framed_lift {A} (r : result A) : framed (lift r).
Proof. intros pg. cbn. rewrite app_nil_r. reflexivity. Qed.

Lemma framed_page_call (c : call) : framed (page_call c).
Proof. intros pg. reflexivity. Qed.

Lemma framed_try_insert_text (E : env) (c : call) : framed (try_insert_text E c).
Proof. intros pg. reflexivity. Qed.

Lemma framed_bind {A B} (c : M A) (f : A -> M B) :
  framed c -> (forall a, framed (f a)) -> framed (c ≫= f).
Proof.
  intros Hc Hf pg. rewrite !bind_run, (Hc pg).
  destruct (c []) as [[a|e] evs]; cbn [fst snd app].
  - rewrite (Hf a (pg ++ evs)), (Hf a evs). cbn [fst snd].
    rewrite app_assoc. reflexivity.
  - reflexivity.
Qed.

Lemma framed_insert_text (x y : Z) (text : str) (fontsize : Z) :
  framed (insert_text x y text fontsize).
Proof.
  unfold insert_text. destruct (nonblank text);
    [apply framed_page_call | apply framed_ret].
Qed.

Lemma framed_at_coordinate (key : str) (body : Z -> Z -> M unit) :
  (forall x y, framed (body x y)) -> framed (at_coordinate key body).
Proof.
  intros H. unfold at_coordinate.
  destruct (FIELD_COORDINATES !! key) as [[x y]|]; [apply H | apply framed_ret].
Qed.

Lemma framed_for_each {A} (l : list A) (body : A -> M unit) :
  (forall a, framed (body a)) -> framed (for_each l body).
Proof.
  intros H. induction l as [|a l IH]; cbn [for_each].
  - apply framed_ret.
  - apply framed_bind; [apply H | intros _; exact IH].
Qed.

Lemma framed_try_fonts (E : env) (point : Z * Z) (display_text : str)
    (fontsize : Z) (fonts : list font_config) :
  framed (try_fonts E point display_text fontsize fonts).
Proof.
  induction fonts as [|font fonts IH]; cbn [try_fonts].
  - apply framed_ret.
  - apply framed_bind; [apply framed_try_insert_text|].
    intros [|]; [apply framed_ret | exact IH].
Qed.

Lemma framed_insert_arabic_text (E : env) (x y : Z) (text : str)
    (fontsize : Z) :
  framed (insert_arabic_text E x y text fontsize).
Proof.
  unfold insert_arabic_text. destruct (nonblank text); [|apply framed_ret].
  cbv zeta. apply framed_bind; [apply framed_try_fonts|].
  intros [|]; [apply framed_ret|].
  apply framed_bind; [apply framed_try_insert_text | intros _; apply framed_ret].
Qed.

Lemma framed_fill_checkboxes (data : gmap str json) :
  framed (fill_checkboxes data).
Proof.
  unfold fill_checkboxes. apply framed_bind; [apply framed_lift|].
  intros visa_type. apply framed_bind.
  - destruct (_ !! visa_type); [|apply framed_ret].
    apply framed_at_coordinate. intros x y. apply framed_page_call.
  - intros _. cbv zeta. destruct (_ !! _); [|apply framed_ret].
    apply framed_at_coordinate. intros x y. apply framed_page_call.
Qed.

Lemma framed_fill_text_fields (E : env) (data : gmap str json) :
  framed (fill_text_fields E data).
Proof.
  unfold fill_text_fields.
  apply framed_bind; [|intros _; apply framed_bind;
                       [|intros _; apply framed_bind;
                         [|intros _; apply framed_bind; [|intros _]]]].
  - apply framed_for_each. intros [json_path coord_key].
    unfold fill_text_field. destruct (truthy _); [|apply framed_ret].
    apply framed_at_coordinate. intros x y. apply framed_insert_text.
  - unfold fill_departure_from_dubai. destruct (truthy _); [|apply framed_ret].
    apply framed_bind; [|intros _];
      apply framed_at_coordinate; intros x y; apply framed_insert_text.
  - unfold fill_arrival_to_dubai. destruct (truthy _); [|apply framed_ret].
    apply framed_bind; [|intros _];
      apply framed_at_coordinate; intros x y; apply framed_insert_text.
  - unfold fill_accompanied_by. destruct (truthy _); [|apply framed_ret].
    apply framed_at_coordinate. intros x y.
    apply framed_bind; [apply framed_lift|]. intros translated_name.
    apply framed_bind; [apply framed_lift|]. intros arabic_text.
    apply framed_insert_arabic_text.
  - unfold fill_visa_type_label. destruct (truthy _); [|apply framed_ret].
    apply framed_at_coordinate. intros x y.
    apply framed_bind; [apply framed_lift|]. intros visa_type_lower.
    destruct (_ !! _); [apply framed_insert_text | apply framed_ret].
Qed.

(** X13: the fill operation only adds to the page.  What it draws, in which
    order, and whether it returns or raises depend on the record and the
    environment alone, never on what the template page already holds, and
    the existing content is kept unchanged in front of what is added. *)
Theorem fill_page_independent_of_template (E : env) (data : gmap str json)
    (template : page) :
  fill_page E data template =
  (fst (fill_page E data []), template ++ snd (fill_page E data [])).
Proof.
  revert template. change (framed (fill_page E data)). unfold fill_page.
  apply framed_bind; [apply framed_page_call|]. intros _.
  apply framed_bind; [apply framed_fill_checkboxes|]. intros _.
  apply framed_fill_text_fields.
Qed.

(** ** The whole operation *)

Lemma fill_page_ill_typed_visa (E : env) (data : gmap str json) (pg : page) :
  stated_visa_type data = None ->
  fill_page E data pg = (Raise AttributeError, pg ++ [redaction]).
Proof.
  intros Hty. unfold fill_page. rewrite bind_run.
  change (redact_existing_dates pg) with (Ok tt, pg ++ [redaction]).
  cbv beta iota.
  rewrite bind_run, (fill_checkboxes_ill_typed _ _ Hty). reflexivity.
Qed.

(** X14: when [visa_info] is not a dictionary or its [type] is not a
    string, both entry points raise [AttributeError] right after the
    redaction: the pre-printed dates are whitened and nothing else has been
    drawn, not even the fields that are well-formed. *)
Theorem ill_typed_visa_stops_after_redaction (E : env)
    (data : gmap str json) (template : page) :
  stated_visa_type data = None ->
  generate_filled_pdf_bytes E data template =
    (Raise AttributeError, template ++ [redaction])
  /\ fill_visa_form E data template =
     (Raise AttributeError, template ++ [redaction]).
Proof.
  intros Hty. unfold generate_filled_pdf_bytes, fill_visa_form.
  rewrite bind_run, (fill_page_ill_typed_visa _ _ _ Hty). split; reflexivity.
Qed.

Lemma part_okb_ok (v : json) : part_okb v = true <-> part_ok v.
Proof.
  unfold part_ok. destruct v as [|b|z|m e|t|l|d]; cbn [part_okb].
  5: { split; [intros _; right; eauto | reflexivity]. }
  all: rewrite negb_true_iff; split;
    [intros H; left; exact H
    | intros [H|[t' H]]; [exact H | discriminate H]].
Qed.

Lemma name_parts_loop_raises (parts : list json) (name_parts : list str) :
  forallb part_okb parts = false ->
  name_parts_loop parts name_parts = Raise AttributeError.
Proof.
  revert name_parts. induction parts as [|part parts IH]; intros name_parts;
    cbn [forallb name_parts_loop]; [discriminate|].
  destruct (part_okb part) eqn:Hpart; cbn [andb].
  - intros Hrest. destruct part as [|b|z|m e|s|l|d].
    5: { destruct (truthy (JStr s)); [|apply IH, Hrest].
         destruct (bool_decide _); apply IH, Hrest. }
    all: cbn [part_okb] in Hpart; apply negb_true_iff in Hpart;
      rewrite Hpart; apply IH, Hrest.
  - intros _. destruct part; cbn in Hpart; try discriminate Hpart;
      apply negb_false_iff in Hpart; cbn [truthy]; rewrite Hpart; reflexivity.
Qed.

Lemma extract_full_name_parts (data : gmap str json) :
  extract_full_name data =
  match name_parts_of data with
  | Some parts =>
      name_parts ← name_parts_loop parts [];
      Ok (PyStr.join (u " ") name_parts)
  | None => Raise AttributeError
  end.
Proof.
  unfold extract_full_name, name_parts_of, personal_info_of.
  destruct (data !! u "personal_info") as [v|]; [|reflexivity].
  destruct v; reflexivity.
Qed.

Lemma extract_full_name_returns_iff (data : gmap str json) :
  (exists full_name, extract_full_name data = Ok full_name)
  <-> name_parts_ok data = true.
Proof.
  rewrite extract_full_name_parts. unfold name_parts_ok.
  destruct (name_parts_of data) as [parts|].
  - destruct (forallb part_okb parts) eqn:Hparts.
    + rewrite name_parts_loop_ok.
      * cbn [mbind result_bind].
        split; [reflexivity | intros _; eexists; reflexivity].
      * apply Forall_forall. intros v Hv. apply part_okb_ok.
        rewrite forallb_forall in Hparts. apply Hparts.
        apply list_elem_of_In, Hv.
    + rewrite (name_parts_loop_raises _ _ Hparts). cbn [mbind result_bind].
      split; [intros [? [= ]] | intros [= ]].
  - split; [intros [? [= ]] | intros [= ]].
Qed.

Lemma extract_full_name_only_attribute_error (data : gmap str json) (e : exn) :
  extract_full_name data = Raise e -> e = AttributeError.
Proof.
  rewrite extract_full_name_parts.
  destruct (name_parts_of data) as [parts|]; [|intros [= <-]; reflexivity].
  destruct (forallb part_okb parts) eqn:Hparts.
  - rewrite name_parts_loop_ok.
    + cbn [mbind result_bind]. intros [= ].
    + apply Forall_forall. intros v Hv. apply part_okb_ok.
      rewrite forallb_forall in Hparts. apply Hparts.
      apply list_elem_of_In, Hv.
  - rewrite (name_parts_loop_raises _ _ Hparts). cbn [mbind result_bind].
    intros [= <-]. reflexivity.
Qed.

(** X15: [extract_full_name] raises exactly when [personal_info] is present
    and not a dictionary, or one of the three name parts is truthy and not
    a string; the exception is always [AttributeError].  Otherwise it
    returns a name. *)
Theorem extract_full_name_raises_iff (data : gmap str json) :
  (extract_full_name data = Raise AttributeError <-> name_parts_ok data = false)
  /\ ((exists full_name, extract_full_name data = Ok full_name)
      <-> name_parts_ok data = true).
Proof.
  split; [|apply extract_full_name_returns_iff].
  pose proof (extract_full_name_returns_iff data) as Hret.
  pose proof (extract_full_name_only_attribute_error data) as Herr.
  destruct (extract_full_name data) as [full_name|e].
  - split; [intros [= ]|]. intros Hparts.
    destruct Hret as [Hret _]. rewrite Hret in Hparts by eauto.
    discriminate Hparts.
  - rewrite (Herr e eq_refl). split; [|reflexivity]. intros _.
    destruct (name_parts_ok data); [|reflexivity].
    destruct Hret as [_ Hret]. destruct (Hret eq_refl) as [? [= ]].
Qed.

Lemma fill_page_fst (E : env) (data : gmap str json) (pg : page) :
  fst (fill_page E data pg) = Ok tt <->
  is_Some (stated_visa_type data) /\ accompany_ok data = true.
Proof.
  unfold fill_page. rewrite bind_run.
  change (redact_existing_dates pg) with (Ok tt, pg ++ [redaction]).
  cbv beta iota. rewrite bind_run.
  destruct (stated_visa_type data) as [t|] eqn:Hty.
  - rewrite (fill_checkboxes_run _ _ _ Hty).
    rewrite fill_text_fields_fst. split; [intros Hok; split; [eauto|exact Hok] | intros [_ Hok]; exact Hok].
  - rewrite (fill_checkboxes_ill_typed _ _ Hty). cbn [fst].
    split; [intros [= ] | intros [[? [= ]] _]].
Qed.

(** X16: [generate_filled_pdf_bytes] returns normally exactly when the
    record is well-typed in three places: the visa type (a string or
    absent, in a dictionary or absent), the accompanying name (a string or
    falsy) and the three name parts (strings or falsy).  It then returns
    the page as drawn together with the extracted full name. *)
Theorem generate_filled_pdf_bytes_returns_iff (E : env)
    (data : gmap str json) (template : page) :
  ((exists pdf_bytes full_name,
       fst (generate_filled_pdf_bytes E data template) = Ok (pdf_bytes, full_name))
   <-> (is_Some (stated_visa_type data)
        /\ accompany_ok data = true /\ name_parts_ok data = true))
  /\ (forall pdf_bytes full_name,
        fst (generate_filled_pdf_bytes E data template) = Ok (pdf_bytes, full_name) ->
        pdf_bytes = snd (fill_visa_form E data template)
        /\ extract_full_name data = Ok full_name).
Proof.
  pose proof (fill_page_fst E data template) as Hpage.
  pose proof (extract_full_name_returns_iff data) as Hname.
  unfold generate_filled_pdf_bytes, fill_visa_form. rewrite bind_run.
  destruct (fill_page E data template) as [[[]|e] pg1]; cbn [fst snd] in *.
  - rewrite bind_run. unfold tobytes. rewrite bind_run, lift_run.
    destruct (extract_full_name data) as [full_name|e]; cbn [fst].
    + split; [split|].
      * intros _. destruct Hpage as [Hpage _].
        destruct (Hpage eq_refl) as [Hty Hok].
        split; [exact Hty|]. split; [exact Hok|]. apply Hname. eauto.
      * intros _. eauto.
      * intros ? ? [= <- <-]. split; reflexivity.
    + split; [split|].
      * intros (? & ? & [= ]).
      * intros (_ & _ & Hparts). apply Hname in Hparts as [? [= ]].
      * intros ? ? [= ].
  - split; [split|].
    + intros (? & ? & [= ]).
    + intros (Hty & Hok & _). destruct Hpage as [_ Hpage].
      discriminate (Hpage (conj Hty Hok)).
    + intros ? ? [= ].
Qed.

(** ** Fields written more than once *)

Lemma for_each_entry_written (data : gmap str json)
    (l1 l2 : list (str * str)) (json_path coord_key : str) (p : Z * Z)
    (pg : page) :
  FIELD_COORDINATES !! coord_key = Some p ->
  truthy (get_nested_value data json_path) = true ->
  nonblank (py_str (get_nested_value data json_path)) = true ->
  exists before after,
    for_each (l1 ++ (json_path, coord_key) :: l2) (fill_text_field data) pg =
    (Ok tt,
     pg ++ before
        ++ [text_at p (py_str (get_nested_value data json_path)) FONT_SIZE]
        ++ after).
Proof.
  destruct p as [x y]. intros Hp Htruthy Htext.
  rewrite for_each_app, bind_run.
  destruct (returns_for_each l1 (fill_text_field data)
              (returns_fill_text_field data) pg) as ([] & before & ->).
  cbn [for_each]. rewrite bind_run.
  assert (Hstep : fill_text_field data (json_path, coord_key) (pg ++ before) =
                  (Ok tt, (pg ++ before)
                     ++ [text_at (x, y) (py_str (get_nested_value data json_path))
                                 FONT_SIZE])).
  { unfold fill_text_field. rewrite Htruthy, (at_coordinate_found _ _ _ _ Hp).
    apply insert_text_nonblank, Htext. }
  rewrite Hstep.
  destruct (returns_for_each l2 (fill_text_field data)
              (returns_fill_text_field data)
              ((pg ++ before)
                 ++ [text_at (x, y) (py_str (get_nested_value data json_path))
                             FONT_SIZE])) as ([] & after & ->).
  exists before, after. rewrite <- !app_assoc. reflexivity.
Qed.

Lemma appends_after_departure (E : env) (data : gmap str json) :
  appends (fill_arrival_to_dubai data;;
           fill_accompanied_by E data;;
           fill_visa_type_label data).
Proof.
  apply appends_bind; [|intros _; apply appends_bind; [|intros _]].
  - unfold fill_arrival_to_dubai. destruct (truthy _); [|apply appends_ret].
    apply appends_bind; [|intros _];
      apply appends_at_coordinate; intros x y; apply appends_insert_text.
  - unfold fill_accompanied_by. destruct (truthy _); [|apply appends_ret].
    apply appends_at_coordinate. intros x y.
    apply appends_bind; [apply appends_lift|]. intros translated_name.
    apply appends_bind; [apply appends_lift|]. intros arabic_text.
    apply appends_insert_arabic_text.
  - intros pg. rewrite fill_visa_type_label_skips. exists [].
    cbn [snd]. rewrite app_nil_r. reflexivity.
Qed.

(** X17: the start of the trip is written from two places.  When the
    record has both [trip_info.start_date] and
    [trip_info.departure_date_from_dubai], each truthy with a text that is
    not blank, [fill_text_fields] draws both texts at the same point
    (328, 393), the mapped one first and the derived one later, on top of
    it; neither replaces the other. *)
Theorem trip_start_date_drawn_twice (E : env) (data : gmap str json)
    (pg : page) :
  let start := get_nested_value data (u "trip_info.start_date") in
  let departure :=
    get_nested_value data (u "trip_info.departure_date_from_dubai") in
  truthy start = true -> nonblank (py_str start) = true ->
  truthy departure = true -> nonblank (py_str departure) = true ->
  exists before between after,
    snd (fill_text_fields E data pg) =
    pg ++ before
       ++ [text_at (328, 393) (py_str start) FONT_SIZE]
       ++ between
       ++ [text_at (328, 393) (py_str departure) FONT_SIZE;
           text_at (72, 544) (py_str departure) FONT_SIZE]
       ++ after.
Proof.
  intros start departure Hs Hstext Hd Hdtext.
  destruct coordinates_of_date_fields as (Hstart & Harrival & _ & _).
  assert (Hmap : TEXT_FIELD_MAPPINGS =
                 firstn 16 TEXT_FIELD_MAPPINGS
                 ++ (u "trip_info.start_date", u "trip_start_date")
                 :: skipn 17 TEXT_FIELD_MAPPINGS) by reflexivity.
  destruct (for_each_entry_written data (firstn 16 TEXT_FIELD_MAPPINGS)
              (skipn 17 TEXT_FIELD_MAPPINGS) _ _ _ pg Hstart Hs Hstext)
    as (before & between & Hloop).
  rewrite <- Hmap in Hloop. fold start in Hloop.
  unfold fill_text_fields. rewrite bind_run, Hloop. cbv beta iota.
  rewrite bind_run.
  unfold fill_departure_from_dubai. fold departure. rewrite Hd.
  rewrite (write_twice _ _ _ _ _ _ Hstart Harrival Hdtext). cbv beta iota.
  destruct (appends_after_departure E data
              ((pg ++ before ++ [text_at (328, 393) (py_str start) FONT_SIZE]
                   ++ between)
                 ++ [text_at (328, 393) (py_str departure) FONT_SIZE;
                     text_at (72, 544) (py_str departure) FONT_SIZE]))
    as [after Hafter].
  exists before, between, after. rewrite Hafter, <- !app_assoc. reflexivity.
Qed.

(** ** The redacted area *)

(** X18: [redact_existing_dates] whitens the rectangle from (328, 382) to
    (543, 394), and of all the insertion points of the coordinate table
    exactly two lie in it: those of [trip_start_date] and [trip_end_date].
    No other field is written inside the redacted area. *)
Theorem redaction_covers_only_trip_dates (key : str) (p : Z * Z) (pg : page) :
  FIELD_COORDINATES !! key = Some p ->
  (in_redacted_area p = true <->
   key = u "trip_start_date" \/ key = u "trip_end_date")
  /\ redact_existing_dates pg =
     (Ok tt, pg ++ [Event (DrawRect (328, 382, 328 + 215, 382 + 12) white white)
                          true]).
Proof.
  intros Hkey. split; [|reflexivity].
  assert (Hall :
    forallb (fun kp : str * (Z * Z) =>
               eqb (in_redacted_area kp.2)
                   (bool_decide (kp.1 = u "trip_start_date"
                                 \/ kp.1 = u "trip_end_date")))
            (map_to_list FIELD_COORDINATES) = true) by (vm_compute; reflexivity).
  pose proof (map_forallb FIELD_COORDINATES _ Hall key p Hkey) as H.
  cbv beta in H. apply eqb_prop in H. cbn [fst snd] in H. rewrite H.
  apply bool_decide_eq_true.
Qed.

(** ** Case, N/A, and the number of draws *)

(** X19: the visa type is matched without regard to the case of its
    letters: two records whose visa types differ only in case get the same
    marks. *)
Theorem fill_checkboxes_ignores_case (data1 data2 : gmap str json)
    (t1 t2 : str) (pg : page) :
  stated_visa_type data1 = Some t1 ->
  stated_visa_type data2 = Some t2 ->
  PyStr.lower t1 = PyStr.lower t2 ->
  fill_checkboxes data1 pg = fill_checkboxes data2 pg.
Proof.
  intros H1 H2 Hlower.
  rewrite (fill_checkboxes_run _ _ _ H1), (fill_checkboxes_run _ _ _ H2), Hlower.
  reflexivity.
Qed.

Lemma middle_name_path (data : gmap str json) :
  get_nested_value data (u "personal_info.middle_name") =
  match data !! u "personal_info" with
  | Some (JDict personal) => default JNull (personal !! u "middle_name")
  | _ => JNull
  end.
Proof.
  change (u "personal_info.middle_name")
    with (u "personal_info" ++ u "." ++ u "middle_name").
  unfold get_nested_value. change (u "." ++ u "middle_name") with (46%N :: u "middle_name").
  rewrite split_app, !split_no_sep
    by (apply (bool_decide_eq_true_1 _); vm_compute; reflexivity).
  cbn [app get_nested_loop].
  destruct (data !! u "personal_info") as [v|]; [|reflexivity].
  destruct v; reflexivity.
Qed.

Lemma na_is_nonblank (s : str) : is_na s = true -> nonblank s = true.
Proof.
  unfold is_na. rewrite bool_decide_eq_true, !elem_of_cons, elem_of_nil.
  intros [->|[->|[->|[->|[]]]]]; vm_compute; reflexivity.
Qed.

Lemma middle_name_coordinate :
  FIELD_COORDINATES !! u "middle_name" = Some (198, 154).
Proof. vm_compute. reflexivity. Qed.

(** X20: a middle name of "N/A", in any case, is written on the form like
    any other text, but is left out of the full name the API returns: the
    returned name is made of the first and last names only. *)
Theorem na_is_written_but_not_named (data : gmap str json) (s : str)
    (pg : page) :
  get_nested_value data (u "personal_info.middle_name") = JStr s ->
  is_na s = true ->
  fill_text_field data (u "personal_info.middle_name", u "middle_name") pg =
    (Ok tt, pg ++ [text_at (198, 154) s FONT_SIZE])
  /\ exists personal,
       data !! u "personal_info" = Some (JDict personal)
       /\ forall full_name,
            extract_full_name data = Ok full_name ->
            full_name =
            PyStr.join (u " ")
              (omap kept_part [ default (JStr []) (personal !! u "first_name");
                                default (JStr []) (personal !! u "last_name") ]).
Proof.
  intros Hpath Hna. split.
  - unfold fill_text_field. rewrite Hpath.
    assert (Hne : truthy (JStr s) = true).
    { pose proof (na_is_nonblank _ Hna) as Hnb. unfold nonblank in Hnb.
      apply andb_true_iff in Hnb as [Hnb _]. exact Hnb. }
    rewrite Hne, (at_coordinate_found _ _ _ _ middle_name_coordinate).
    apply insert_text_nonblank, na_is_nonblank, Hna.
  - rewrite middle_name_path in Hpath.
    destruct (data !! u "personal_info") as [v|] eqn:Hpersonal;
      [|discriminate Hpath].
    destruct v as [| | | | | |personal]; try discriminate Hpath.
    exists personal. split; [reflexivity|].
    intros full_name Hname.
    assert (Hmiddle : default (JStr []) (personal !! u "middle_name") = JStr s).
    { destruct (personal !! u "middle_name"); [exact Hpath|discriminate Hpath]. }
    assert (Hok : name_parts_ok data = true).
    { apply extract_full_name_returns_iff. eauto. }
    rewrite extract_full_name_parts in Hname.
    unfold name_parts_ok in Hok. unfold name_parts_of, personal_info_of in Hname, Hok.
    rewrite Hpersonal in Hname, Hok. cbn [mbind option_bind] in Hname, Hok.
    rewrite name_parts_loop_ok in Hname.
    + cbn [mbind result_bind app] in Hname. injection Hname as <-.
      rewrite !omap_kept_cons, Hmiddle. cbn [kept_part]. rewrite Hna.
      rewrite andb_false_r. reflexivity.
    + apply Forall_forall. intros v Hv. apply part_okb_ok.
      rewrite forallb_forall in Hok. apply Hok. apply list_elem_of_In, Hv.
Qed.

Lemma drawn_calls_one (c : call) (b : bool) :
  drawn_calls [Event c b] = if b then [c] else [].
Proof. destruct b; reflexivity. Qed.

(** X21: whatever fonts are installed, [insert_arabic_text] makes at most
    eight draw attempts, all with the same point, display text and size,
    and at most one of them draws: the text is never put on the page
    twice.  A blank text causes no attempt. *)
Theorem insert_arabic_text_draws_at_most_once (E : env) (x y : Z)
    (text : str) (fontsize : Z) (pg : page) :
  exists attempts,
    insert_arabic_text E x y text fontsize pg = (Ok tt, pg ++ attempts)
    /\ (length attempts <= 8)%nat
    /\ (length (drawn_calls attempts) <= 1)%nat
    /\ Forall (fun e => exists font,
                   ev_call e = attempt (x, y) (reshape_arabic_text E text)
                                       fontsize font) attempts
    /\ (nonblank text = false -> attempts = []).
Proof.
  assert (Hseven : length font_attempts = 7%nat) by reflexivity.
  destruct (nonblank text) eqn:Htext.
  - destruct (insert_arabic_text_run E x y text fontsize pg Htext)
      as [(failed & f & rest & Hsplit & _ & _ & Hrun)|[_ Hrun]];
      rewrite Hrun; eexists; (split; [reflexivity|]).
    + rewrite Hsplit, length_app in Hseven. cbn [length] in Hseven.
      split; [|split; [|split; [|discriminate]]].
      * rewrite length_app. unfold failed_draws. rewrite length_fmap.
        cbn [length]. lia.
      * rewrite drawn_calls_app, drawn_calls_failed, drawn_calls_one.
        cbn [app length]. lia.
      * apply Forall_app. split; [apply failed_draws_calls|].
        constructor; [exists f; reflexivity|constructor].
    + split; [|split; [|split; [|discriminate]]].
      * rewrite length_app. unfold failed_draws. rewrite length_fmap, Hseven.
        cbn [length]. lia.
      * rewrite drawn_calls_app, drawn_calls_failed, drawn_calls_one.
        destruct (insert_text_ok E _); cbn [app length]; lia.
      * apply Forall_app. split; [apply failed_draws_calls|].
        constructor; [exists helv; reflexivity|constructor].
  - exists []. unfold insert_arabic_text. rewrite Htext, app_nil_r.
    split; [reflexivity|]. split; [cbn; lia|]. split; [cbn; lia|].
    split; [constructor|reflexivity].
Qed.

End FillTextFields.

(** * Concrete runs *)

(** ** Checkboxes *)

(** C1 (the code at the failing input): C1 promises one duration checkbox
    for every applicant record.  On a record whose [visa_info.type] is JSON
    null, [visa.get("type", "")] returns None, not the default, and
    [fill_checkboxes] raises [AttributeError] on [.lower()] before any
    checkbox is marked: no duration box, and the fill operation is
    aborted. *)
Lemma fill_checkboxes_null_type :
  stated_visa_type (Samples.visa JNull) = None
  /\ fill_checkboxes (Samples.visa JNull) [] = (Raise AttributeError, []).
Proof. split; vm_compute; reflexivity. Qed.

(** The marks for the type "Multiple". *)
Lemma fill_checkboxes_marks_witness :
  stated_visa_type (Samples.visa (JStr (u "Multiple"))) = Some (u "Multiple")
  /\ fill_checkboxes (Samples.visa (JStr (u "Multiple"))) [] =
     (Ok tt, [checkbox_mark (68, 620); checkbox_mark six_months_box]).
Proof.
  split; [vm_compute; reflexivity|].
  exact (proj1 (fill_checkboxes_marks (Samples.visa (JStr (u "Multiple")))
                  (u "Multiple") [] eq_refl)).
Defined.

(** ** Text fields *)

(** Witness of C2: a record without [personal_info]. *)
Lemma missing_path_is_skipped_witness :
  TEXT_FIELD_MAPPINGS =
    [] ++ (u "personal_info.first_name", u "first_name") :: tail TEXT_FIELD_MAPPINGS
  /\ traversal_fails (JDict (Samples.visa (JStr (u "single"))))
       (PyStr.split 46 (u "personal_info.first_name"))
  /\ fill_text_field Samples.repr_placeholder (Samples.visa (JStr (u "single")))
       (u "personal_info.first_name", u "first_name") [] = (Ok tt, []).
Proof.
  assert (Hfail : traversal_fails (JDict (Samples.visa (JStr (u "single"))))
                    (PyStr.split 46 (u "personal_info.first_name"))).
  { refine (fails_absent _ (u "personal_info") [u "first_name"] _).
    vm_compute. reflexivity. }
  split; [reflexivity|]. split; [exact Hfail|].
  exact (proj1 (missing_path_is_skipped Samples.repr_placeholder
                  (Samples.visa (JStr (u "single")))
                  (u "personal_info.first_name") (u "first_name")
                  [] (tail TEXT_FIELD_MAPPINGS) [] eq_refl Hfail)).
Defined.

(** Witness of C10: a mobile number given as the integer 0. *)
Lemma falsy_value_is_skipped_witness :
  TEXT_FIELD_MAPPINGS =
    firstn 5 TEXT_FIELD_MAPPINGS
    ++ (u "personal_info.mobile", u "mobile") :: skipn 6 TEXT_FIELD_MAPPINGS
  /\ truthy (get_nested_value (Samples.mobile (JInt 0)) (u "personal_info.mobile"))
     = false
  /\ fill_text_field Samples.repr_placeholder (Samples.mobile (JInt 0))
       (u "personal_info.mobile", u "mobile") [] = (Ok tt, []).
Proof.
  assert (Hfalsy : truthy (get_nested_value (Samples.mobile (JInt 0))
                             (u "personal_info.mobile")) = false).
  { vm_compute. reflexivity. }
  split; [reflexivity|]. split; [exact Hfalsy|].
  exact (proj1 (falsy_value_is_skipped Samples.repr_placeholder
                  (Samples.mobile (JInt 0))
                  (u "personal_info.mobile") (u "mobile")
                  (firstn 5 TEXT_FIELD_MAPPINGS) (skipn 6 TEXT_FIELD_MAPPINGS) []
                  eq_refl (or_introl Hfalsy))).
Defined.

(** The other falsy values of C10, and a whitespace-only string. *)
Example falsy_values_write_nothing :
  Forall (fun v =>
            fill_text_field Samples.repr_placeholder (Samples.mobile v)
              (u "personal_info.mobile", u "mobile") [] = (Ok tt, []))
         [JInt 0; JBool false; JStr []; JStr (u "   "); JNull; JList []; JDict ∅;
          JFloat 0 0]
  /\ fill_text_field Samples.repr_placeholder (Samples.mobile (JInt 7))
       (u "personal_info.mobile", u "mobile") [] =
     (Ok tt, [text_at (328, 178) (u "7") FONT_SIZE]).
Proof. split; [repeat constructor|]; vm_compute; reflexivity. Qed.

(** C9 (as stated) fails: a departure date that is the one-space string is
    present and not empty, yet nothing is written at [trip_start_date] or
    [arrival_date]. *)
Lemma blank_date_is_not_written :
  get_nested_value (Samples.trip (JStr (u " ")) JNull)
    (u "trip_info.departure_date_from_dubai") = JStr (u " ")
  /\ truthy (JStr (u " ")) = true
  /\ fill_departure_from_dubai Samples.repr_placeholder
       (Samples.trip (JStr (u " ")) JNull) [] = (Ok tt, []).
Proof. repeat split; vm_compute; reflexivity. Qed.

(** Witness of C9: a date string and a number. *)
Lemma dates_from_dubai_written_twice_witness :
  (truthy (JStr (u "12/12/2025")) = true
   /\ nonblank (u "12/12/2025") = true
   /\ truthy (JInt 5) = true
   /\ nonblank (u "5") = true)
  /\ fill_departure_from_dubai Samples.repr_placeholder
       (Samples.trip (JStr (u "12/12/2025")) (JInt 5)) [] =
     (Ok tt, [text_at (328, 393) (u "12/12/2025") FONT_SIZE;
              text_at (72, 544) (u "12/12/2025") FONT_SIZE])
  /\ fill_arrival_to_dubai Samples.repr_placeholder
       (Samples.trip (JStr (u "12/12/2025")) (JInt 5)) [] =
     (Ok tt, [text_at (420, 393) (u "5") FONT_SIZE;
              text_at (328, 544) (u "5") FONT_SIZE]).
Proof.
  split; [repeat split; vm_compute; reflexivity|].
  pose proof (dates_from_dubai_written_twice Samples.repr_placeholder
                (Samples.trip (JStr (u "12/12/2025")) (JInt 5)) [])
    as (Hdeparture & Harrival & _).
  split.
  - exact (Hdeparture eq_refl eq_refl).
  - exact (Harrival eq_refl eq_refl).
Defined.

(** ** The accompanied-by field *)

(** C7 (as stated) fails twice.  With the shaping library loaded, what is
    drawn is the display form of the prefixed name, not the prefixed name;
    and where no font draws, "helv" included, nothing is written at the
    coordinate. *)
Lemma accompanied_by_text_not_literal :
  (TRANSLATION_SUPPORT Samples.env_shaping = false
   /\ drawn_calls (snd (fill_accompanied_by 8 Samples.env_shaping
                          (Samples.accompanied (JStr (u "Mary"))) [])) =
      [InsertText (450, 750) (rev (ARABIC_ACCOMPANIED_BY_PREFIX ++ u "Mary"))
                  (FontConfig (Some (u "/System/Library/Fonts/GeezaPro.ttc"))
                              (u "GeezaPro"))
                  8 black]
   /\ rev (ARABIC_ACCOMPANIED_BY_PREFIX ++ u "Mary")
      <> ARABIC_ACCOMPANIED_BY_PREFIX ++ u "Mary")
  /\ (TRANSLATION_SUPPORT Samples.env_bare = false
      /\ fst (fill_accompanied_by 8 Samples.env_bare
                (Samples.accompanied (JStr (u "Mary"))) []) = Ok tt
      /\ drawn_calls (snd (fill_accompanied_by 8 Samples.env_bare
                             (Samples.accompanied (JStr (u "Mary"))) [])) = []).
Proof.
  split; (split; [reflexivity|]); split; try (vm_compute; reflexivity).
  vm_compute. discriminate.
Qed.

(** Witness of C7: "Mary", no translation library. *)
Lemma accompanied_by_untranslated_witness :
  (TRANSLATION_SUPPORT Samples.env_figo = false
   /\ get_nested_value (Samples.accompanied (JStr (u "Mary"))) (u "accompany_name")
      = JStr (u "Mary")
   /\ u "Mary" <> [])
  /\ fill_accompanied_by 8 Samples.env_figo
       (Samples.accompanied (JStr (u "Mary"))) [] =
     insert_arabic_text Samples.env_figo 450 750
       (ARABIC_ACCOMPANIED_BY_PREFIX ++ u "Mary") 8 [].
Proof.
  assert (Hname : get_nested_value (Samples.accompanied (JStr (u "Mary")))
                    (u "accompany_name") = JStr (u "Mary")).
  { vm_compute. reflexivity. }
  assert (Hne : u "Mary" <> []) by discriminate.
  split; [split; [reflexivity|split; [exact Hname|exact Hne]]|].
  exact (proj1 (accompanied_by_untranslated 8 Samples.env_figo
                  (Samples.accompanied (JStr (u "Mary"))) (u "Mary") []
                  eq_refl Hname Hne)).
Defined.

(** With only [figo] usable, the six font files are tried and fail, and
    the seventh candidate writes the prefixed, untranslated name. *)
Example accompanied_by_mary_figo :
  drawn_calls (snd (fill_accompanied_by 8 Samples.env_figo
                      (Samples.accompanied (JStr (u "Mary"))) [])) =
    [InsertText (450, 750) (ARABIC_ACCOMPANIED_BY_PREFIX ++ u "Mary")
                (FontConfig None (u "figo")) 8 black]
  /\ length (snd (fill_accompanied_by 8 Samples.env_figo
                    (Samples.accompanied (JStr (u "Mary"))) [])) = 7%nat.
Proof. split; vm_compute; reflexivity. Qed.

(** Witness of C4: the translation call raises. *)
Lemma translation_failure_is_not_fatal_witness :
  (TRANSLATION_SUPPORT Samples.env_offline = false
   \/ translate Samples.env_offline (u "Mary") = None)
  /\ translate_to_arabic Samples.env_offline (JStr (u "Mary")) = Ok (JStr (u "Mary")).
Proof.
  split; [right; reflexivity|].
  exact (proj1 (translation_failure_is_not_fatal 8 Samples.env_offline (u "Mary")
                  (or_intror eq_refl))).
Defined.

(** ** The visa type label *)

(** C5 (the code at the failing input): the label table knows "single",
    but the coordinate table has no "visa_type_label" entry, so the label
    step, and with it the whole of [fill_text_fields] on this record, writes
    nothing. *)
Theorem visa_type_label_is_not_written :
  Samples.labels !! PyStr.lower (u "Single") = Some (u "SINGLE ENTRY")
  /\ FIELD_COORDINATES !! u "visa_type_label" = None
  /\ fill_visa_type_label Samples.labels 8 (Samples.visa (JStr (u "Single"))) []
     = (Ok tt, [])
  /\ fill_text_fields Samples.labels 8 Samples.repr_placeholder Samples.env_bare
       (Samples.visa (JStr (u "Single"))) [] = (Ok tt, []).
Proof.
  split; [vm_compute; reflexivity|].
  split; [exact visa_type_label_no_coordinate|].
  split; [apply fill_visa_type_label_skips|].
  vm_compute. reflexivity.
Qed.

(** ** The full name *)

(** C6 (the code at the failing input): C6 promises a full name for every
    applicant record.  A first name that is a JSON number is truthy and has
    no [upper] method, so [extract_full_name] raises [AttributeError]
    instead of returning the remaining parts, although the form writer
    accepts the same value through [str]. *)
Lemma extract_full_name_numeric_part :
  extract_full_name (Samples.names (JInt 123) (JStr (u "N/A")) (JStr (u "Haddad")))
  = Raise AttributeError.
Proof. vm_compute. reflexivity. Qed.

(** The full name of Ali, N/A, Haddad. *)
Lemma extract_full_name_keeps_real_parts_witness :
  (personal_info_of (Samples.names (JStr (u "Ali")) (JStr (u "N/A")) (JStr (u "Haddad")))
   = Some (list_to_map [ (u "first_name", JStr (u "Ali"));
                         (u "middle_name", JStr (u "N/A"));
                         (u "last_name", JStr (u "Haddad")) ])
   /\ part_ok (JStr (u "Ali")) /\ part_ok (JStr (u "N/A"))
   /\ part_ok (JStr (u "Haddad")))
  /\ extract_full_name
       (Samples.names (JStr (u "Ali")) (JStr (u "N/A")) (JStr (u "Haddad")))
     = Ok (u "Ali Haddad").
Proof.
  assert (Hstr : forall s, part_ok (JStr s)) by (intros s; right; eauto).
  assert (Hp : personal_info_of
                 (Samples.names (JStr (u "Ali")) (JStr (u "N/A")) (JStr (u "Haddad")))
               = Some (list_to_map [ (u "first_name", JStr (u "Ali"));
                                     (u "middle_name", JStr (u "N/A"));
                                     (u "last_name", JStr (u "Haddad")) ])).
  { vm_compute. reflexivity. }
  split; [split; [exact Hp|repeat split; apply Hstr]|].
  exact (proj1 (extract_full_name_keeps_real_parts _ _ Hp
                  (Hstr _) (Hstr _) (Hstr _))).
Defined.

(** ** Further concrete runs *)

(** Witness of X3: the flat key [signature_date]. *)
Lemma get_nested_value_flat_witness :
  (46%N ∉ u "signature_date")
  /\ get_nested_value {[ u "signature_date" := JStr (u "01/02/2026") ]}
       (u "signature_date") = JStr (u "01/02/2026").
Proof.
  assert (Hdot : 46%N ∉ u "signature_date").
  { apply (bool_decide_eq_true_1 _). vm_compute. reflexivity. }
  split; [exact Hdot|].
  exact (get_nested_value_flat {[ u "signature_date" := JStr (u "01/02/2026") ]}
           (u "signature_date") Hdot).
Defined.

(** Witness of X5: a mobile number given as the integer 7. *)
Lemma mapped_value_is_written_witness :
  (In (u "personal_info.mobile", u "mobile") TEXT_FIELD_MAPPINGS
   /\ truthy (get_nested_value (Samples.mobile (JInt 7)) (u "personal_info.mobile"))
      = true
   /\ nonblank (py_str Samples.repr_placeholder
                  (get_nested_value (Samples.mobile (JInt 7))
                     (u "personal_info.mobile"))) = true)
  /\ exists p,
       FIELD_COORDINATES !! u "mobile" = Some p
       /\ on_page p
       /\ fill_text_field Samples.repr_placeholder (Samples.mobile (JInt 7))
            (u "personal_info.mobile", u "mobile") [] =
          (Ok tt, [] ++ [text_at p (py_str Samples.repr_placeholder
                                      (get_nested_value (Samples.mobile (JInt 7))
                                         (u "personal_info.mobile")))
                                 FONT_SIZE]).
Proof.
  assert (Hin : In (u "personal_info.mobile", u "mobile") TEXT_FIELD_MAPPINGS).
  { do 5 right. left. reflexivity. }
  assert (Htruthy : truthy (get_nested_value (Samples.mobile (JInt 7))
                              (u "personal_info.mobile")) = true).
  { vm_compute. reflexivity. }
  assert (Htext : nonblank (py_str Samples.repr_placeholder
                              (get_nested_value (Samples.mobile (JInt 7))
                                 (u "personal_info.mobile"))) = true).
  { vm_compute. reflexivity. }
  split; [split; [exact Hin|split; [exact Htruthy|exact Htext]]|].
  exact (mapped_value_is_written Samples.repr_placeholder
           (Samples.mobile (JInt 7)) (u "personal_info.mobile") (u "mobile") []
           Hin Htruthy Htext).
Defined.

(** Witness of X9: "Mary" with a translator that answers. *)
Lemma accompanied_by_translated_witness :
  (TRANSLATION_SUPPORT MoreSamples.env_translating = true
   /\ get_nested_value (Samples.accompanied (JStr (u "Mary"))) (u "accompany_name")
      = JStr (u "Mary")
   /\ nonblank (u "Mary") = true
   /\ translate MoreSamples.env_translating (u "Mary")
      = Some [0x645; 0x627; 0x631; 0x64A]%N)
  /\ fill_accompanied_by 8 MoreSamples.env_translating
       (Samples.accompanied (JStr (u "Mary"))) [] =
     insert_arabic_text MoreSamples.env_translating 450 750
       (ARABIC_ACCOMPANIED_BY_PREFIX ++ [0x645; 0x627; 0x631; 0x64A]%N) 8 [].
Proof.
  assert (Hname : get_nested_value (Samples.accompanied (JStr (u "Mary")))
                    (u "accompany_name") = JStr (u "Mary")).
  { vm_compute. reflexivity. }
  assert (Htext : nonblank (u "Mary") = true) by (vm_compute; reflexivity).
  split; [split; [reflexivity|split; [exact Hname|split; [exact Htext|reflexivity]]]|].
  exact (proj2 (accompanied_by_translated 8 MoreSamples.env_translating
                  (Samples.accompanied (JStr (u "Mary"))) (u "Mary")
                  [0x645; 0x627; 0x631; 0x64A]%N [] eq_refl Hname Htext eq_refl)).
Defined.


(** With "helv" as the only font that draws, the blank name still puts the
    prefix on the page. *)
Example blank_name_draws_prefix :
  drawn_calls (snd (fill_accompanied_by 8 MoreSamples.env_translating
                      (Samples.accompanied (JStr (u "  "))) [])) =
  [InsertText (450, 750) (ARABIC_ACCOMPANIED_BY_PREFIX ++ u "  ") helv 8 black].
Proof. vm_compute. reflexivity. Qed.

(** Witness of X11: the name given as the number 5. *)
Lemma accompanied_by_ill_typed_raises_witness :
  (truthy (get_nested_value (Samples.accompanied (JInt 5)) (u "accompany_name"))
   = true
   /\ (forall s, get_nested_value (Samples.accompanied (JInt 5))
                    (u "accompany_name") <> JStr s))
  /\ fill_accompanied_by 8 MoreSamples.env_translating
       (Samples.accompanied (JInt 5)) [] = (Raise AttributeError, [])
  /\ fill_accompanied_by 8 Samples.env_bare
       (Samples.accompanied (JInt 5)) [] = (Raise TypeError, []).
Proof.
  assert (Hv : get_nested_value (Samples.accompanied (JInt 5)) (u "accompany_name")
               = JInt 5) by (vm_compute; reflexivity).
  assert (Htruthy : truthy (get_nested_value (Samples.accompanied (JInt 5))
                              (u "accompany_name")) = true)
    by (rewrite Hv; reflexivity).
  assert (Hstr : forall s, get_nested_value (Samples.accompanied (JInt 5))
                             (u "accompany_name") <> JStr s)
    by (intros s; rewrite Hv; discriminate).
  split; [split; [exact Htruthy|exact Hstr]|]. split.
  - exact (accompanied_by_ill_typed_raises 8 MoreSamples.env_translating
             (Samples.accompanied (JInt 5)) [] Htruthy Hstr).
  - exact (accompanied_by_ill_typed_raises 8 Samples.env_bare
             (Samples.accompanied (JInt 5)) [] Htruthy Hstr).
Defined.

(** Witness of X12: the same record through [fill_text_fields]. *)
Lemma fill_text_fields_raises_iff_witness :
  accompany_ok (Samples.accompanied (JInt 5)) = false
  /\ fill_text_fields Samples.labels 8 Samples.repr_placeholder Samples.env_bare
       (Samples.accompanied (JInt 5)) [] =
     (Raise TypeError,
      snd (fields_before_accompanied Samples.repr_placeholder
             (Samples.accompanied (JInt 5)) [])).
Proof.
  assert (Hok : accompany_ok (Samples.accompanied (JInt 5)) = false)
    by (vm_compute; reflexivity).
  split; [exact Hok|].
  exact (proj2 (fill_text_fields_raises_iff Samples.labels 8
                  Samples.repr_placeholder Samples.env_bare
                  (Samples.accompanied (JInt 5)) []) Hok).
Defined.

(** Witness of X14: a null visa type. *)
Lemma ill_typed_visa_stops_after_redaction_witness :
  stated_visa_type (Samples.visa JNull) = None
  /\ fill_visa_form Samples.labels 8 Samples.repr_placeholder Samples.env_bare
       (Samples.visa JNull) [] = (Raise AttributeError, [redaction]).
Proof.
  assert (Hty : stated_visa_type (Samples.visa JNull) = None)
    by (vm_compute; reflexivity).
  split; [exact Hty|].
  exact (proj2 (ill_typed_visa_stops_after_redaction Samples.labels 8
                  Samples.repr_placeholder Samples.env_bare
                  (Samples.visa JNull) [] Hty)).
Defined.

(** Witness of X17: a start date and a departure date. *)
Lemma trip_start_date_drawn_twice_witness :
  (truthy (JStr (u "01/01/2026")) = true /\ nonblank (u "01/01/2026") = true
   /\ truthy (JStr (u "02/01/2026")) = true /\ nonblank (u "02/01/2026") = true)
  /\ exists before between after,
       snd (fill_text_fields Samples.labels 8 Samples.repr_placeholder
              Samples.env_bare
              (MoreSamples.trip_starts (JStr (u "01/01/2026"))
                                       (JStr (u "02/01/2026"))) []) =
       [] ++ before
          ++ [text_at (328, 393) (u "01/01/2026") FONT_SIZE]
          ++ between
          ++ [text_at (328, 393) (u "02/01/2026") FONT_SIZE;
              text_at (72, 544) (u "02/01/2026") FONT_SIZE]
          ++ after.
Proof.
  split; [repeat split; vm_compute; reflexivity|].
  exact (trip_start_date_drawn_twice Samples.labels 8 Samples.repr_placeholder
           Samples.env_bare
           (MoreSamples.trip_starts (JStr (u "01/01/2026")) (JStr (u "02/01/2026")))
           [] eq_refl eq_refl eq_refl eq_refl).
Defined.

(** Witness of X18: the mobile field lies outside the redacted area. *)
Lemma redaction_covers_only_trip_dates_witness :
  FIELD_COORDINATES !! u "mobile" = Some (328, 178)
  /\ (in_redacted_area (328, 178) = true <->
      u "mobile" = u "trip_start_date" \/ u "mobile" = u "trip_end_date").
Proof.
  assert (Hkey : FIELD_COORDINATES !! u "mobile" = Some (328, 178))
    by (vm_compute; reflexivity).
  split; [exact Hkey|].
  exact (proj1 (redaction_covers_only_trip_dates (u "mobile") (328, 178) []
                  Hkey)).
Defined.

(** Witness of X19: "SINGLE" and "single". *)
Lemma fill_checkboxes_ignores_case_witness :
  (stated_visa_type (Samples.visa (JStr (u "SINGLE"))) = Some (u "SINGLE")
   /\ stated_visa_type (Samples.visa (JStr (u "single"))) = Some (u "single")
   /\ PyStr.lower (u "SINGLE") = PyStr.lower (u "single"))
  /\ fill_checkboxes (Samples.visa (JStr (u "SINGLE"))) [] =
     fill_checkboxes (Samples.visa (JStr (u "single"))) [].
Proof.
  split; [repeat split; vm_compute; reflexivity|].
  exact (fill_checkboxes_ignores_case
           (Samples.visa (JStr (u "SINGLE"))) (Samples.visa (JStr (u "single")))
           (u "SINGLE") (u "single") [] eq_refl eq_refl eq_refl).
Defined.

(** Witness of X20: Ali n/a Haddad. *)
Lemma na_is_written_but_not_named_witness :
  (get_nested_value
     (Samples.names (JStr (u "Ali")) (JStr (u "n/a")) (JStr (u "Haddad")))
     (u "personal_info.middle_name") = JStr (u "n/a")
   /\ is_na (u "n/a") = true)
  /\ fill_text_field Samples.repr_placeholder
       (Samples.names (JStr (u "Ali")) (JStr (u "n/a")) (JStr (u "Haddad")))
       (u "personal_info.middle_name", u "middle_name") [] =
     (Ok tt, [] ++ [text_at (198, 154) (u "n/a") FONT_SIZE]).
Proof.
  assert (Hpath : get_nested_value
                    (Samples.names (JStr (u "Ali")) (JStr (u "n/a"))
                                   (JStr (u "Haddad")))
                    (u "personal_info.middle_name") = JStr (u "n/a"))
    by (vm_compute; reflexivity).
  assert (Hna : is_na (u "n/a") = true) by (vm_compute; reflexivity).
  split; [split; [exact Hpath|exact Hna]|].
  exact (proj1 (na_is_written_but_not_named Samples.repr_placeholder
                  (Samples.names (JStr (u "Ali")) (JStr (u "n/a"))
                                 (JStr (u "Haddad")))
                  (u "n/a") [] Hpath Hna)).
Defined.

(** The same record through [extract_full_name]. *)
Example ali_na_haddad_full_name :
  extract_full_name
    (Samples.names (JStr (u "Ali")) (JStr (u "n/a")) (JStr (u "Haddad")))
  = Ok (u "Ali Haddad").
Proof. vm_compute. reflexivity. Qed.
